(** * ChatNES: a shallow embedding of the Python NES emulator

    Sources embedded here:
    - [src/v1.0/nes_viewer.py]            (module [nes_viewer]);
    - [src/v1.1/nes_emulator_complete.py] (everything else).

    Python integers are unbounded, so every integer is a [Z] and each
    mask ([& 0xFF], [& 0xFFFF], ...) is written where the source has it.
    [bytes], [bytearray] and Python lists are [list Z]; indexing raises
    [IndexError] out of range, which the embedding keeps as a [Raise]
    outcome. *)

From Stdlib Require Import ZArith Lia Bool.
From stdpp Require Import base option list.

Local Open Scope Z_scope.

(** ** Python outcomes: a value or a raised exception *)

Inductive exn := IndexError | ValueError | AssertionError.

Inductive result (A : Type) : Type :=
| Ok (a : A)
| Raise (e : exn).
Arguments Ok {A} a.
Arguments Raise {A} e.

#[global] Instance result_ret : MRet result := fun A a => Ok a.
#[global] Instance result_bind : MBind result := fun A B f r =>
  match r with
  | Ok a => f a
  | Raise e => Raise e
  end.

Definition is_ok {A} (r : result A) : bool :=
  match r with Ok _ => true | Raise _ => false end.

(** ** Python sequences *)

Definition len {A} (l : list A) : Z := Z.of_nat (length l).

(** [l[i]]: negative indices count from the end, anything else out of
    range raises [IndexError]. *)
Definition getitem {A} (l : list A) (i : Z) : result A :=
  let j := if i <? 0 then i + len l else i in
  if (0 <=? j) && (j <? len l)
  then match l !! Z.to_nat j with
       | Some v => Ok v
       | None => Raise IndexError
       end
  else Raise IndexError.

(** [l[i] = v] on a [bytearray] or a list. *)
Definition setitem {A} (l : list A) (i : Z) (v : A) : result (list A) :=
  let j := if i <? 0 then i + len l else i in
  if (0 <=? j) && (j <? len l)
  then Ok (<[Z.to_nat j := v]> l)
  else Raise IndexError.

(** [l[a:b]] for non-negative bounds; slices clamp and never raise. *)
Definition slice {A} (l : list A) (a b : Z) : list A :=
  take (Z.to_nat (b - a)) (drop (Z.to_nat a) l).

(** [range(n)] *)
Definition range (n : Z) : list Z := seqZ 0 n.

(** [for i in idxs: s = body(i, s)], stopping at the first exception. *)
Fixpoint for_each {S} (idxs : list Z) (body : Z -> S -> result S) (s : S)
  : result S :=
  match idxs with
  | [] => Ok s
  | i :: rest =>
      match body i s with
      | Ok s' => for_each rest body s'
      | Raise e => Raise e
      end
  end.

(** [bool(n)] for an integer. *)
Definition truthy (n : Z) : bool := negb (n =? 0).

(** ** iNES ROM loader *)

Inductive mirror := horizontal | vertical.

(** A file opened for reading is the list of bytes still to be read;
    [f.read(n)] returns at most [n] of them. *)
Definition file := list Z.

Definition f_read (n : Z) (f : file) : list Z * file :=
  (take (Z.to_nat n) f, drop (Z.to_nat n) f).

(** [b"NES\x1a"] *)
Definition NES_MAGIC : list Z := [0x4E; 0x45; 0x53; 0x1A].

Record INESRom := {
  prg_rom : list Z;
  chr_rom : list Z;
  mapper : Z;
  mirroring : mirror;
  prg_banks : Z;
  chr_banks : Z;
  trainer_present : bool
}.

Definition list_Z_eqb (a b : list Z) : bool := bool_decide (a = b).

(** [INESRom._load] of nes_emulator_complete.py. *)
Definition _load (f : file) : result INESRom :=
  let '(header, f) := f_read 16 f in
  if (len header <? 16) || negb (list_Z_eqb (slice header 0 4) NES_MAGIC)
  then Raise ValueError
  else
    prg_banks ← getitem header 4;
    chr_banks ← getitem header 5;
    flags6 ← getitem header 6;
    flags7 ← getitem header 7;
    let mapper := Z.lor (Z.shiftl (Z.shiftr flags7 4) 4) (Z.shiftr flags6 4) in
    let mirroring := if truthy (Z.land flags6 1) then vertical else horizontal in
    let trainer_present := truthy (Z.land flags6 0x04) in
    let f := if trainer_present then snd (f_read 512 f) else f in
    let '(prg_rom, f) := f_read (prg_banks * 16 * 1024) f in
    let chr_rom := if 0 <? chr_banks
                   then fst (f_read (chr_banks * 8 * 1024) f) else [] in
    mret {| prg_rom := prg_rom; chr_rom := chr_rom; mapper := mapper;
            mirroring := mirroring; prg_banks := prg_banks;
            chr_banks := chr_banks; trainer_present := trainer_present |}.

(** ** CHR tile decoding *)

(** [decode_tile_8x8] of nes_emulator_complete.py. *)
Definition decode_tile_8x8 (tile_bytes : list Z) : result (list (list Z)) :=
  let plane0 := slice tile_bytes 0 8 in
  let plane1 := slice tile_bytes 8 16 in
  let pixels := replicate 8 (replicate 8 0) in
  for_each (range 8) (fun y pixels =>
    b0 ← getitem plane0 y;
    b1 ← getitem plane1 y;
    for_each (range 8) (fun x pixels =>
      let bit := 7 - x in
      let v0 := Z.land (Z.shiftr b0 bit) 1 in
      let v1 := Z.land (Z.shiftr b1 bit) 1 in
      row ← getitem pixels y;
      row ← setitem row x (Z.lor (Z.shiftl v1 1) v0);
      setitem pixels y row) pixels) pixels.

(** ** nes_viewer.py (v1.0) *)

Module nes_viewer.

Record INESRom := {
  prg_rom : list Z;
  chr_rom : list Z;
  trainer : option (list Z);
  mapper : Z;
  mirroring : mirror;
  battery : bool;
  four_screen : bool;
  prg_banks : Z;
  chr_banks : Z;
  trainer_present : bool
}.

(** [INESRom._load] of nes_viewer.py; [struct.unpack("<BBBBBBB",
    header[4:11])] reads seven unsigned bytes in order. *)
Definition _load (f : file) : result INESRom :=
  let '(header, f) := f_read 16 f in
  if len header <? 16 then Raise ValueError
  else if negb (list_Z_eqb (slice header 0 4) NES_MAGIC) then Raise ValueError
  else
    match slice header 4 11 with
    | [prg_banks; chr_banks; flags6; flags7; prg_ram; flags9; flags10] =>
        let mapper_low := Z.shiftr flags6 4 in
        let mapper_high := Z.shiftr flags7 4 in
        let mapper := Z.lor mapper_low (Z.shiftl mapper_high 4) in
        let mirroring :=
          if truthy (Z.land flags6 0x01) then vertical else horizontal in
        let battery := truthy (Z.land flags6 0x02) in
        let trainer_present := truthy (Z.land flags6 0x04) in
        let four_screen := truthy (Z.land flags6 0x08) in
        let '(trainer, f) :=
          if trainer_present
          then let '(t, f) := f_read 512 f in (Some t, f)
          else (None, f) in
        let prg_size := prg_banks * 16 * 1024 in
        let '(prg_rom, f) := f_read prg_size f in
        let chr_size := chr_banks * 8 * 1024 in
        let chr_rom := if 0 <? chr_size then fst (f_read chr_size f) else [] in
        Ok {| prg_rom := prg_rom; chr_rom := chr_rom; trainer := trainer;
              mapper := mapper; mirroring := mirroring; battery := battery;
              four_screen := four_screen; prg_banks := prg_banks;
              chr_banks := chr_banks; trainer_present := trainer_present |}
    | _ => Raise ValueError
    end.

(** [decode_tile] of nes_viewer.py, with its length assertion. *)
Definition decode_tile (tile_bytes : list Z) : result (list (list Z)) :=
  if negb (len tile_bytes =? 16) then Raise AssertionError
  else
    let plane0 := slice tile_bytes 0 8 in
    let plane1 := slice tile_bytes 8 16 in
    let pixels := replicate 8 (replicate 8 0) in
    for_each (range 8) (fun y pixels =>
      b0 ← getitem plane0 y;
      b1 ← getitem plane1 y;
      for_each (range 8) (fun x pixels =>
        let bit := 7 - x in
        let v0 := Z.land (Z.shiftr b0 bit) 1 in
        let v1 := Z.land (Z.shiftr b1 bit) 1 in
        row ← getitem pixels y;
        row ← setitem row x (Z.lor (Z.shiftl v1 1) v0);
        setitem pixels y row) pixels) pixels.

End nes_viewer.

(** ** Basic NES palette (approximate): 48 RGB entries *)

Definition rgb : Type := Z * Z * Z.

Definition NES_PALETTE : list rgb := [
  (84,84,84); (0,30,116); (8,16,144); (48,0,136); (68,0,100); (92,0,48); (84,4,0); (60,24,0);
  (32,42,0); (8,58,0); (0,64,0); (0,60,0); (0,50,60); (0,0,0); (0,0,0); (0,0,0);
  (152,150,152); (8,76,196); (48,50,236); (92,30,228); (136,20,176); (160,20,100); (152,34,32); (120,60,0);
  (84,90,0); (40,114,0); (8,124,0); (0,118,40); (0,102,120); (0,0,0); (0,0,0); (0,0,0);
  (236,238,236); (76,154,236); (120,124,236); (176,98,236); (228,84,236); (236,88,180); (236,106,100); (212,136,32);
  (160,170,0); (116,196,0); (76,208,32); (56,204,108); (56,180,204); (60,60,60); (0,0,0); (0,0,0)
].

(** ** CPU registers *)

Module CPU6502.
Record t := {
  A : Z;
  X : Z;
  Y : Z;
  PC : Z;
  SP : Z;
  P : Z;        (* NV-BDIZC *)
  cycles : Z
}.

(** Register values of [CPU6502.__init__]. *)
Definition __init__ : t :=
  {| A := 0; X := 0; Y := 0; PC := 0; SP := 0xFD; P := 0x24; cycles := 0 |}.

Definition with_A (v : Z) (c : t) : t :=
  {| A := v; X := X c; Y := Y c; PC := PC c; SP := SP c; P := P c; cycles := cycles c |}.
Definition with_X (v : Z) (c : t) : t :=
  {| A := A c; X := v; Y := Y c; PC := PC c; SP := SP c; P := P c; cycles := cycles c |}.
Definition with_Y (v : Z) (c : t) : t :=
  {| A := A c; X := X c; Y := v; PC := PC c; SP := SP c; P := P c; cycles := cycles c |}.
Definition with_PC (v : Z) (c : t) : t :=
  {| A := A c; X := X c; Y := Y c; PC := v; SP := SP c; P := P c; cycles := cycles c |}.
Definition with_SP (v : Z) (c : t) : t :=
  {| A := A c; X := X c; Y := Y c; PC := PC c; SP := v; P := P c; cycles := cycles c |}.
Definition with_P (v : Z) (c : t) : t :=
  {| A := A c; X := X c; Y := Y c; PC := PC c; SP := SP c; P := v; cycles := cycles c |}.
Definition with_cycles (v : Z) (c : t) : t :=
  {| A := A c; X := X c; Y := Y c; PC := PC c; SP := SP c; P := P c; cycles := v |}.

Definition FLAG_N : Z := 0x80.
Definition FLAG_V : Z := 0x40.
Definition FLAG_B : Z := 0x10.
Definition FLAG_D : Z := 0x08.
Definition FLAG_I : Z := 0x04.
Definition FLAG_Z : Z := 0x02.
Definition FLAG_C : Z := 0x01.
End CPU6502.

(** ** PPU memory *)

Definition SCREEN_W : Z := 256.
Definition SCREEN_H : Z := 240.

(** [bytearray(n)]: [n] zero bytes. *)
Definition bytearray (n : Z) : list Z := replicate (Z.to_nat n) 0.

Module PPU.
Record t := {
  chr : list Z;
  vram : list Z;
  palette : list Z;
  oam : list Z;
  nmi_output : bool;
  frame_count : Z
}.

Definition with_chr (v : list Z) (p : t) : t :=
  {| chr := v; vram := vram p; palette := palette p; oam := oam p;
     nmi_output := nmi_output p; frame_count := frame_count p |}.
Definition with_vram (v : list Z) (p : t) : t :=
  {| chr := chr p; vram := v; palette := palette p; oam := oam p;
     nmi_output := nmi_output p; frame_count := frame_count p |}.
Definition with_palette (v : list Z) (p : t) : t :=
  {| chr := chr p; vram := vram p; palette := v; oam := oam p;
     nmi_output := nmi_output p; frame_count := frame_count p |}.
Definition with_oam (v : list Z) (p : t) : t :=
  {| chr := chr p; vram := vram p; palette := palette p; oam := v;
     nmi_output := nmi_output p; frame_count := frame_count p |}.

(** [PPU.__init__(rom, chr_data=None)]: the cartridge is consulted for
    its CHR image only. *)
Definition __init__ (rom : INESRom) (chr_data : option (list Z)) : t :=
  let chr :=
    match chr_data with
    | Some d => d
    | None => if len (chr_rom rom) =? 0 then bytearray (8 * 1024)
              else chr_rom rom
    end in
  {| chr := chr; vram := bytearray (2 * 1024); palette := bytearray 32;
     oam := bytearray 256; nmi_output := false; frame_count := 0 |}.

(** [PPU.read] *)
Definition read (self : t) (addr : Z) : result Z :=
  let addr := Z.land addr 0x3FFF in
  if addr <? 0x2000 then
    getitem (chr self) addr
  else if (0x2000 <=? addr) && (addr <? 0x3F00) then
    let nt_index := Z.land (addr - 0x2000) 0x07FF in
    getitem (vram self) nt_index
  else
    let pa := (addr - 0x3F00) mod 32 in
    getitem (palette self) pa.

(** [PPU.write] *)
Definition write (self : t) (addr val : Z) : result t :=
  let addr := Z.land addr 0x3FFF in
  let val := Z.land val 0xFF in
  if addr <? 0x2000 then
    c ← setitem (chr self) addr val; mret (with_chr c self)
  else if (0x2000 <=? addr) && (addr <? 0x3F00) then
    let nt_index := Z.land (addr - 0x2000) 0x07FF in
    v ← setitem (vram self) nt_index val; mret (with_vram v self)
  else
    let pa := (addr - 0x3F00) mod 32 in
    p ← setitem (palette self) pa val; mret (with_palette p self).
End PPU.

(** ** The frame surface

    [pygame.Surface((w, h))] is taken as a [w] x [h] grid of RGB pixels,
    black when created; [set_at] outside the grid changes nothing. *)

Module Surface.
Record t := {
  width : Z;
  height : Z;
  pixels : Z -> Z -> rgb
}.

Definition new (w h : Z) : t :=
  {| width := w; height := h; pixels := fun _ _ => (0, 0, 0) |}.

Definition fill (color : rgb) (s : t) : t :=
  {| width := width s; height := height s; pixels := fun _ _ => color |}.

Definition set_at (x y : Z) (color : rgb) (s : t) : t :=
  if (0 <=? x) && (x <? width s) && (0 <=? y) && (y <? height s)
  then {| width := width s; height := height s;
          pixels := fun x' y' =>
            if (x' =? x) && (y' =? y) then color else pixels s x' y' |}
  else s.

Definition get_at (x y : Z) (s : t) : rgb := pixels s x y.
End Surface.

(** [[f(i) for i in idxs]] *)
Fixpoint list_comp {B} (f : Z -> result B) (idxs : list Z) : result (list B) :=
  match idxs with
  | [] => Ok []
  | i :: rest => b ← f i; bs ← list_comp f rest; mret (b :: bs)
  end.

(** ** [PPU.render_frame] *)

Section render_frame.
Variable self : PPU.t.
Variable tiles : list (list (list Z)).

(** Body of the two innermost background loops, for tile pixel
    [(tx, ty)] of the nametable cell [(col, row)]. *)
Definition draw_bg_pixel (tile : list (list Z)) (pal_base row col ty tx : Z)
    (surf : Surface.t) : result Surface.t :=
  trow ← getitem tile ty;
  t ← getitem trow tx;
  let pidx := Z.land t 0x03 in
  c ← PPU.read self (pal_base + pidx);
  let color_index := Z.land c 0x3F in
  color ← getitem NES_PALETTE (color_index mod len NES_PALETTE);
  mret (Surface.set_at (col * 8 + tx) (row * 8 + ty) color surf).

(** Body of the [for col in range(32)] loop. *)
Definition draw_bg_tile (row col : Z) (surf : Surface.t) : result Surface.t :=
  let base_nt := 0x2000 in
  let nt_addr := base_nt + row * 32 + col in
  tile_index ← PPU.read self nt_addr;
  tile ← getitem tiles (tile_index mod Z.max 1 (len tiles));
  let attr_x := col / 4 in
  let attr_y := row / 4 in
  let attr_addr := 0x23C0 + attr_y * 8 + attr_x in
  attr ← PPU.read self attr_addr;
  let sub_x := (col mod 4) / 2 in
  let sub_y := (row mod 4) / 2 in
  let shift := (sub_y * 2 + sub_x) * 2 in
  let palette_id := Z.land (Z.shiftr attr shift) 0x03 in
  let pal_base := 0x3F00 + palette_id * 4 in
  for_each (range 8) (fun ty surf =>
    for_each (range 8) (fun tx surf =>
      draw_bg_pixel tile pal_base row col ty tx surf) surf) surf.

(** The nametable-0 background pass. *)
Definition render_background (surf : Surface.t) : result Surface.t :=
  for_each (range 30) (fun row surf =>
    for_each (range 32) (fun col surf => draw_bg_tile row col surf) surf) surf.

(** Body of the two innermost sprite loops. *)
Definition draw_sprite_pixel (tile : list (list Z)) (pal_base x y : Z)
    (flip_h flip_v : bool) (ty tx : Z) (surf : Surface.t) : result Surface.t :=
  let sx := if negb flip_h then tx else 7 - tx in
  let sy := if negb flip_v then ty else 7 - ty in
  trow ← getitem tile sy;
  t ← getitem trow sx;
  let pidx := Z.land t 0x03 in
  if pidx =? 0 then mret surf
  else
    c ← PPU.read self (pal_base + pidx);
    let color_index := Z.land c 0x3F in
    color ← getitem NES_PALETTE (color_index mod len NES_PALETTE);
    let px := x + tx in
    let py := y + ty in
    if (0 <=? px) && (px <? SCREEN_W) && (0 <=? py) && (py <? SCREEN_H)
    then mret (Surface.set_at px py color surf)
    else mret surf.

(** Body of the [for s in range(64)] loop. *)
Definition draw_sprite (s : Z) (surf : Surface.t) : result Surface.t :=
  y ← getitem (PPU.oam self) (s * 4 + 0);
  tile_idx ← getitem (PPU.oam self) (s * 4 + 1);
  attr ← getitem (PPU.oam self) (s * 4 + 2);
  x ← getitem (PPU.oam self) (s * 4 + 3);
  let palette_id := Z.land attr 0x03 in
  let flip_h := truthy (Z.land attr 0x40) in
  let flip_v := truthy (Z.land attr 0x80) in
  let pal_base := 0x3F10 + palette_id * 4 in
  tile ← getitem tiles (tile_idx mod Z.max 1 (len tiles));
  for_each (range 8) (fun ty surf =>
    for_each (range 8) (fun tx surf =>
      draw_sprite_pixel tile pal_base x y flip_h flip_v ty tx surf) surf) surf.

Definition render_sprites (surf : Surface.t) : result Surface.t :=
  for_each (range 64) draw_sprite surf.
End render_frame.

Definition render_frame (self : PPU.t) : result Surface.t :=
  let surf := Surface.new SCREEN_W SCREEN_H in
  bg_index ← (if 0 <? len (PPU.palette self)
              then getitem (PPU.palette self) 0 else Ok 0);
  bg_color ← getitem NES_PALETTE (bg_index mod len NES_PALETTE);
  let surf := Surface.fill bg_color surf in
  let tile_count := len (PPU.chr self) / 16 in
  tiles ← list_comp (fun i =>
             decode_tile_8x8 (slice (PPU.chr self) (i * 16) ((i + 1) * 16)))
           (range tile_count);
  surf ← render_background self tiles surf;
  render_sprites self tiles surf.

(** ** NES system wiring *)

Record NES := {
  rom : INESRom;
  ram : list Z;                (* CPU visible RAM (2KB) *)
  sram : list Z;               (* cartridge SRAM *)
  prg : list Z;                (* PRG ROM data *)
  ppu : PPU.t;
  controller_state : list Z;
  controller_shift : list Z;
  controller_strobe : Z;
  cpu : CPU6502.t;
  nmi_pending : bool
}.

Definition with_ram (v : list Z) (n : NES) : NES :=
  {| rom := rom n; ram := v; sram := sram n; prg := prg n; ppu := ppu n;
     controller_state := controller_state n;
     controller_shift := controller_shift n;
     controller_strobe := controller_strobe n; cpu := cpu n;
     nmi_pending := nmi_pending n |}.
Definition with_sram (v : list Z) (n : NES) : NES :=
  {| rom := rom n; ram := ram n; sram := v; prg := prg n; ppu := ppu n;
     controller_state := controller_state n;
     controller_shift := controller_shift n;
     controller_strobe := controller_strobe n; cpu := cpu n;
     nmi_pending := nmi_pending n |}.
Definition with_ppu (v : PPU.t) (n : NES) : NES :=
  {| rom := rom n; ram := ram n; sram := sram n; prg := prg n; ppu := v;
     controller_state := controller_state n;
     controller_shift := controller_shift n;
     controller_strobe := controller_strobe n; cpu := cpu n;
     nmi_pending := nmi_pending n |}.
Definition with_controller_state (v : list Z) (n : NES) : NES :=
  {| rom := rom n; ram := ram n; sram := sram n; prg := prg n; ppu := ppu n;
     controller_state := v;
     controller_shift := controller_shift n;
     controller_strobe := controller_strobe n; cpu := cpu n;
     nmi_pending := nmi_pending n |}.
Definition with_controller_shift (v : list Z) (n : NES) : NES :=
  {| rom := rom n; ram := ram n; sram := sram n; prg := prg n; ppu := ppu n;
     controller_state := controller_state n;
     controller_shift := v;
     controller_strobe := controller_strobe n; cpu := cpu n;
     nmi_pending := nmi_pending n |}.
Definition with_controller_strobe (v : Z) (n : NES) : NES :=
  {| rom := rom n; ram := ram n; sram := sram n; prg := prg n; ppu := ppu n;
     controller_state := controller_state n;
     controller_shift := controller_shift n;
     controller_strobe := v; cpu := cpu n;
     nmi_pending := nmi_pending n |}.
Definition with_cpu (v : CPU6502.t) (n : NES) : NES :=
  {| rom := rom n; ram := ram n; sram := sram n; prg := prg n; ppu := ppu n;
     controller_state := controller_state n;
     controller_shift := controller_shift n;
     controller_strobe := controller_strobe n; cpu := v;
     nmi_pending := nmi_pending n |}.
Definition with_nmi_pending (v : bool) (n : NES) : NES :=
  {| rom := rom n; ram := ram n; sram := sram n; prg := prg n; ppu := ppu n;
     controller_state := controller_state n;
     controller_shift := controller_shift n;
     controller_strobe := controller_strobe n; cpu := cpu n;
     nmi_pending := v |}.

(** ** Methods as state transformers

    A method of the system (or of its CPU, whose [read]/[write] are the
    system's [cpu_read]/[cpu_write]) takes the machine state and either
    returns a value with the new state or raises. *)

Definition M (A : Type) : Type := NES -> result (A * NES).

#[global] Instance M_ret : MRet M := fun A a s => Ok (a, s).
#[global] Instance M_bind : MBind M := fun A B f m s =>
  match m s with
  | Ok (a, s') => f a s'
  | Raise e => Raise e
  end.

Definition gets {A} (f : NES -> A) : M A := fun s => Ok (f s, s).
Definition modify (f : NES -> NES) : M unit := fun s => Ok (tt, f s).
Definition lift {A} (r : result A) : M A := fun s =>
  match r with
  | Ok a => Ok (a, s)
  | Raise e => Raise e
  end.

(** [for i in idxs: body(i)] *)
Fixpoint for_M (idxs : list Z) (body : Z -> M unit) : M unit :=
  match idxs with
  | [] => mret tt
  | i :: rest => body i;; for_M rest body
  end.

(** [NES.cpu_read] *)
Definition cpu_read (addr : Z) : M Z :=
  let addr := Z.land addr 0xFFFF in
  if (0x0000 <=? addr) && (addr <=? 0x1FFF) then
    ram ← gets ram; lift (getitem ram (Z.land addr 0x07FF))
  else if (0x2000 <=? addr) && (addr <=? 0x3FFF) then
    mret 0
  else if (0x4000 <=? addr) && (addr <=? 0x401F) then
    if (addr =? 0x4016) || (addr =? 0x4017) then
      let idx := if addr =? 0x4016 then 0 else 1 in
      shift ← gets controller_shift;
      cur ← lift (getitem shift idx);
      let val := Z.land cur 1 in
      shift ← lift (setitem shift idx (Z.shiftr cur 1));
      modify (with_controller_shift shift);;
      mret (Z.lor val 0x40)
    else mret 0
  else if (0x6000 <=? addr) && (addr <=? 0x7FFF) then
    sram ← gets sram; lift (getitem sram (addr - 0x6000))
  else if (0x8000 <=? addr) && (addr <=? 0xFFFF) then
    rom ← gets rom;
    prg ← gets prg;
    if prg_banks rom =? 1 then
      let offset := (addr - 0x8000) mod (16 * 1024) in
      lift (getitem prg offset)
    else
      let offset := addr - 0x8000 in
      lift (getitem prg offset)
  else mret 0.

(** [NES.cpu_write] *)
Definition cpu_write (addr val : Z) : M unit :=
  let addr := Z.land addr 0xFFFF in
  let val := Z.land val 0xFF in
  if (0x0000 <=? addr) && (addr <=? 0x1FFF) then
    ram ← gets ram;
    ram ← lift (setitem ram (Z.land addr 0x07FF) val);
    modify (with_ram ram)
  else if (0x2000 <=? addr) && (addr <=? 0x3FFF) then
    mret tt
  else if (0x4000 <=? addr) && (addr <=? 0x401F) then
    if addr =? 0x4014 then
      let page := val in
      let base := page * 0x100 in
      for_M (range 256) (fun i =>
        b ← cpu_read (base + i);
        ppu ← gets ppu;
        oam ← lift (setitem (PPU.oam ppu) i b);
        modify (with_ppu (PPU.with_oam oam ppu)))
    else if addr =? 0x4016 then
      modify (with_controller_strobe (Z.land val 1));;
      strobe ← gets controller_strobe;
      if truthy strobe then
        state ← gets controller_state;
        s0 ← lift (getitem state 0);
        shift ← gets controller_shift;
        shift ← lift (setitem shift 0 s0);
        modify (with_controller_shift shift);;
        state ← gets controller_state;
        s1 ← lift (getitem state 1);
        shift ← gets controller_shift;
        shift ← lift (setitem shift 1 s1);
        modify (with_controller_shift shift)
      else mret tt
    else mret tt
  else if (0x6000 <=? addr) && (addr <=? 0x7FFF) then
    sram ← gets sram;
    sram ← lift (setitem sram (addr - 0x6000) val);
    modify (with_sram sram)
  else if (0x8000 <=? addr) && (addr <=? 0xFFFF) then
    mret tt
  else mret tt.

(** ** CPU (6502): register access, flags, stack and fetch helpers *)

Definition get_A : M Z := gets (fun s => CPU6502.A (cpu s)).
Definition get_X : M Z := gets (fun s => CPU6502.X (cpu s)).
Definition get_Y : M Z := gets (fun s => CPU6502.Y (cpu s)).
Definition get_PC : M Z := gets (fun s => CPU6502.PC (cpu s)).
Definition get_SP : M Z := gets (fun s => CPU6502.SP (cpu s)).
Definition get_P : M Z := gets (fun s => CPU6502.P (cpu s)).
Definition get_cycles : M Z := gets (fun s => CPU6502.cycles (cpu s)).

Definition set_A (v : Z) : M unit :=
  modify (fun s => with_cpu (CPU6502.with_A v (cpu s)) s).
Definition set_X (v : Z) : M unit :=
  modify (fun s => with_cpu (CPU6502.with_X v (cpu s)) s).
Definition set_Y (v : Z) : M unit :=
  modify (fun s => with_cpu (CPU6502.with_Y v (cpu s)) s).
Definition set_PC (v : Z) : M unit :=
  modify (fun s => with_cpu (CPU6502.with_PC v (cpu s)) s).
Definition set_SP (v : Z) : M unit :=
  modify (fun s => with_cpu (CPU6502.with_SP v (cpu s)) s).
Definition set_P (v : Z) : M unit :=
  modify (fun s => with_cpu (CPU6502.with_P v (cpu s)) s).
Definition set_cycles (v : Z) : M unit :=
  modify (fun s => with_cpu (CPU6502.with_cycles v (cpu s)) s).

(** [self.cycles += n] *)
Definition add_cycles (n : Z) : M unit :=
  c ← get_cycles; set_cycles (c + n).

Definition set_flag (mask : Z) (value : bool) : M unit :=
  p ← get_P;
  if value then set_P (Z.lor p mask)
  else set_P (Z.land p (Z.land (Z.lnot mask) 0xFF)).

Definition get_flag (mask : Z) : M bool :=
  p ← get_P; mret (truthy (Z.land p mask)).

Definition push (val : Z) : M unit :=
  sp ← get_SP;
  cpu_write (0x100 + sp) (Z.land val 0xFF);;
  sp ← get_SP;
  set_SP (Z.land (sp - 1) 0xFF).

Definition pop : M Z :=
  sp ← get_SP;
  set_SP (Z.land (sp + 1) 0xFF);;
  sp ← get_SP;
  cpu_read (0x100 + sp).

Definition fetch_byte : M Z :=
  pc ← get_PC;
  b ← cpu_read pc;
  pc ← get_PC;
  set_PC (Z.land (pc + 1) 0xFFFF);;
  mret b.

Definition fetch_word : M Z :=
  lo ← fetch_byte;
  hi ← fetch_byte;
  mret (Z.lor lo (Z.shiftl hi 8)).

Definition reset : M unit :=
  lo ← cpu_read 0xFFFC;
  hi ← cpu_read 0xFFFD;
  set_PC (Z.lor lo (Z.shiftl hi 8));;
  set_SP 0xFD;;
  set_P 0x24.

Definition update_zn (val : Z) : M unit :=
  set_flag CPU6502.FLAG_Z (Z.land val 0xFF =? 0);;
  set_flag CPU6502.FLAG_N (negb (Z.land val 0x80 =? 0)).

Definition read_addr (addr : Z) : M Z := cpu_read (Z.land addr 0xFFFF).

Definition write_addr (addr val : Z) : M unit :=
  cpu_write (Z.land addr 0xFFFF) (Z.land val 0xFF).

(** Addressing mode helpers *)

Definition am_immediate : M Z :=
  addr ← get_PC;
  set_PC (Z.land (addr + 1) 0xFFFF);;
  mret addr.

Definition am_zeropage : M Z := fetch_byte.

Definition am_zeropage_x : M Z :=
  b ← fetch_byte; x ← get_X; mret (Z.land (b + x) 0xFF).

Definition am_zeropage_y : M Z :=
  b ← fetch_byte; y ← get_Y; mret (Z.land (b + y) 0xFF).

Definition am_absolute : M Z := fetch_word.

Definition am_absolute_x : M Z :=
  base ← fetch_word; x ← get_X; mret (Z.land (base + x) 0xFFFF).

Definition am_absolute_y : M Z :=
  base ← fetch_word; y ← get_Y; mret (Z.land (base + y) 0xFFFF).

Definition am_indirect : M Z :=
  ptr ← fetch_word;
  if Z.land ptr 0xFF =? 0xFF then
    lo ← read_addr ptr;
    hi ← read_addr (Z.land ptr 0xFF00);
    mret (Z.lor (Z.shiftl hi 8) lo)
  else
    lo ← read_addr ptr;
    hi ← read_addr (ptr + 1);
    mret (Z.lor (Z.shiftl hi 8) lo).

Definition am_indirect_x : M Z :=
  b ← fetch_byte; x ← get_X;
  let zp := Z.land (b + x) 0xFF in
  lo ← read_addr zp;
  hi ← read_addr (Z.land (zp + 1) 0xFF);
  mret (Z.lor (Z.shiftl hi 8) lo).

Definition am_indirect_y : M Z :=
  zp ← fetch_byte;
  lo ← read_addr zp;
  hi ← read_addr (Z.land (zp + 1) 0xFF);
  let base := Z.lor (Z.shiftl hi 8) lo in
  y ← get_Y;
  mret (Z.land (base + y) 0xFFFF).

Definition am_relative : M Z :=
  offset ← fetch_byte;
  pc ← get_PC;
  if offset <? 0x80 then mret (Z.land (pc + offset) 0xFFFF)
  else mret (Z.land (pc + offset - 0x100) 0xFFFF).

(** ** [CPU6502.step]

    [execute opcode] is the body of [step] after the opcode fetch: the
    chain of [if opcode == ...] tests in source order, ending in the
    default fallback. Each branch returns the cycle count. *)

Definition execute (opcode : Z) : M Z :=
  (* NOP *)
  if opcode =? 0xEA then
    add_cycles 2;; mret 2
  (* LDA *)
  else if opcode =? 0xA9 then  (* immediate *)
    addr ← am_immediate; val ← read_addr addr;
    set_A val;; a ← get_A; update_zn a;; add_cycles 2;; mret 2
  else if opcode =? 0xA5 then  (* zp *)
    addr ← am_zeropage; val ← read_addr addr;
    set_A val;; a ← get_A; update_zn a;; add_cycles 3;; mret 3
  else if opcode =? 0xB5 then  (* zp,X *)
    addr ← am_zeropage_x; val ← read_addr addr;
    set_A val;; a ← get_A; update_zn a;; add_cycles 4;; mret 4
  else if opcode =? 0xAD then  (* abs *)
    addr ← am_absolute; val ← read_addr addr;
    set_A val;; a ← get_A; update_zn a;; add_cycles 4;; mret 4
  else if opcode =? 0xBD then  (* abs,X *)
    base ← fetch_word;
    x ← get_X;
    let addr := Z.land (base + x) 0xFFFF in
    val ← read_addr addr;
    set_A val;; a ← get_A; update_zn a;; add_cycles 4;; mret 4
  else if opcode =? 0xB9 then  (* abs,Y *)
    base ← fetch_word;
    y ← get_Y;
    let addr := Z.land (base + y) 0xFFFF in
    val ← read_addr addr;
    set_A val;; a ← get_A; update_zn a;; add_cycles 4;; mret 4
  else if opcode =? 0xA1 then  (* (zp,X) *)
    b ← fetch_byte; x ← get_X;
    let zp := Z.land (b + x) 0xFF in
    lo ← read_addr zp; hi ← read_addr (Z.land (zp + 1) 0xFF);
    let addr := Z.lor (Z.shiftl hi 8) lo in
    val ← read_addr addr;
    set_A val;; a ← get_A; update_zn a;; add_cycles 6;; mret 6
  else if opcode =? 0xB1 then  (* (zp),Y *)
    zp ← fetch_byte;
    lo ← read_addr zp; hi ← read_addr (Z.land (zp + 1) 0xFF);
    let base := Z.lor (Z.shiftl hi 8) lo in
    y ← get_Y;
    let addr := Z.land (base + y) 0xFFFF in
    val ← read_addr addr;
    set_A val;; a ← get_A; update_zn a;; add_cycles 5;; mret 5
  (* STA *)
  else if opcode =? 0x85 then  (* zp *)
    addr ← am_zeropage;
    a ← get_A; write_addr addr a;; add_cycles 3;; mret 3
  else if opcode =? 0x8D then  (* abs *)
    addr ← am_absolute;
    a ← get_A; write_addr addr a;; add_cycles 4;; mret 4
  else if opcode =? 0x95 then  (* zp,X *)
    addr ← am_zeropage_x;
    a ← get_A; write_addr addr a;; add_cycles 4;; mret 4
  else if opcode =? 0x9D then  (* abs,X *)
    base ← fetch_word; x ← get_X;
    let addr := Z.land (base + x) 0xFFFF in
    a ← get_A; write_addr addr a;; add_cycles 5;; mret 5
  else if opcode =? 0x99 then  (* abs,Y *)
    base ← fetch_word; y ← get_Y;
    let addr := Z.land (base + y) 0xFFFF in
    a ← get_A; write_addr addr a;; add_cycles 5;; mret 5
  else if opcode =? 0x81 then  (* (zp,X) *)
    b ← fetch_byte; x ← get_X;
    let zp := Z.land (b + x) 0xFF in
    lo ← read_addr zp; hi ← read_addr (Z.land (zp + 1) 0xFF);
    let addr := Z.lor (Z.shiftl hi 8) lo in
    a ← get_A; write_addr addr a;; add_cycles 6;; mret 6
  else if opcode =? 0x91 then  (* (zp),Y *)
    zp ← fetch_byte;
    lo ← read_addr zp; hi ← read_addr (Z.land (zp + 1) 0xFF);
    let base := Z.lor (Z.shiftl hi 8) lo in
    y ← get_Y;
    let addr := Z.land (base + y) 0xFFFF in
    a ← get_A; write_addr addr a;; add_cycles 6;; mret 6
  (* TAX/TAY/TXA/TYA *)
  else if opcode =? 0xAA then
    a ← get_A; set_X a;; x ← get_X; update_zn x;; add_cycles 2;; mret 2
  else if opcode =? 0xA8 then
    a ← get_A; set_Y a;; y ← get_Y; update_zn y;; add_cycles 2;; mret 2
  else if opcode =? 0x8A then
    x ← get_X; set_A x;; a ← get_A; update_zn a;; add_cycles 2;; mret 2
  else if opcode =? 0x98 then
    y ← get_Y; set_A y;; a ← get_A; update_zn a;; add_cycles 2;; mret 2
  (* INX/INY/DEX/DEY *)
  else if opcode =? 0xE8 then
    x ← get_X; set_X (Z.land (x + 1) 0xFF);;
    x ← get_X; update_zn x;; add_cycles 2;; mret 2
  else if opcode =? 0xC8 then
    y ← get_Y; set_Y (Z.land (y + 1) 0xFF);;
    y ← get_Y; update_zn y;; add_cycles 2;; mret 2
  else if opcode =? 0xCA then
    x ← get_X; set_X (Z.land (x - 1) 0xFF);;
    x ← get_X; update_zn x;; add_cycles 2;; mret 2
  else if opcode =? 0x88 then
    y ← get_Y; set_Y (Z.land (y - 1) 0xFF);;
    y ← get_Y; update_zn y;; add_cycles 2;; mret 2
  (* ADC (immediate and zp) *)
  else if opcode =? 0x69 then
    val ← fetch_byte;
    c ← get_flag CPU6502.FLAG_C;
    let carry := if (c : bool) then 1 else 0 in
    a ← get_A;
    let res := a + val + carry in
    set_flag CPU6502.FLAG_C (0xFF <? res);;
    a ← get_A;
    set_flag CPU6502.FLAG_V
      (negb (Z.land (Z.land (Z.lnot (Z.lxor a val)) (Z.lxor a res)) 0x80 =? 0));;
    set_A (Z.land res 0xFF);;
    a ← get_A; update_zn a;; add_cycles 2;; mret 2
  else if opcode =? 0x65 then
    addr ← am_zeropage; val ← read_addr addr;
    c ← get_flag CPU6502.FLAG_C;
    let carry := if (c : bool) then 1 else 0 in
    a ← get_A;
    let res := a + val + carry in
    set_flag CPU6502.FLAG_C (0xFF <? res);;
    a ← get_A;
    set_flag CPU6502.FLAG_V
      (negb (Z.land (Z.land (Z.lnot (Z.lxor a val)) (Z.lxor a res)) 0x80 =? 0));;
    set_A (Z.land res 0xFF);;
    a ← get_A; update_zn a;; add_cycles 3;; mret 3
  (* (Other ADC addressing modes and SBC are not in the source.) *)
  (* Branches *)
  else if opcode =? 0xD0 then  (* BNE *)
    addr ← am_relative;
    z ← get_flag CPU6502.FLAG_Z;
    if negb z then set_PC addr;; add_cycles 3;; mret 3
    else add_cycles 2;; mret 2
  else if opcode =? 0xF0 then  (* BEQ *)
    addr ← am_relative;
    z ← get_flag CPU6502.FLAG_Z;
    if (z : bool) then set_PC addr;; add_cycles 3;; mret 3
    else add_cycles 2;; mret 2
  else if opcode =? 0x90 then  (* BCC *)
    addr ← am_relative;
    c ← get_flag CPU6502.FLAG_C;
    if negb c then set_PC addr;; add_cycles 3;; mret 3
    else add_cycles 2;; mret 2
  else if opcode =? 0xB0 then  (* BCS *)
    addr ← am_relative;
    c ← get_flag CPU6502.FLAG_C;
    if (c : bool) then set_PC addr;; add_cycles 3;; mret 3
    else add_cycles 2;; mret 2
  (* JMP absolute / indirect *)
  else if opcode =? 0x4C then
    addr ← fetch_word;
    set_PC addr;; add_cycles 3;; mret 3
  else if opcode =? 0x6C then
    ptr ← fetch_word;
    '(lo, hi) ← (if Z.land ptr 0xFF =? 0xFF then
                   lo ← read_addr ptr; hi ← read_addr (Z.land ptr 0xFF00);
                   mret (lo, hi)
                 else
                   lo ← read_addr ptr; hi ← read_addr (ptr + 1);
                   mret (lo, hi));
    set_PC (Z.lor (Z.shiftl hi 8) lo);; add_cycles 5;; mret 5
  (* JSR / RTS *)
  else if opcode =? 0x20 then  (* JSR absolute *)
    addr ← fetch_word;
    pc ← get_PC;
    let ret := Z.land (pc - 1) 0xFFFF in
    push (Z.land (Z.shiftr ret 8) 0xFF);; push (Z.land ret 0xFF);;
    set_PC addr;; add_cycles 6;; mret 6
  else if opcode =? 0x60 then  (* RTS *)
    lo ← pop; hi ← pop;
    set_PC (Z.lor (Z.shiftl hi 8) lo + 1);;
    add_cycles 6;; mret 6
  (* BRK *)
  else if opcode =? 0x00 then
    fetch_byte;;  (* padding *)
    ret ← get_PC;
    push (Z.land (Z.shiftr ret 8) 0xFF);; push (Z.land ret 0xFF);;
    p ← get_P;
    push (Z.lor p 0x10);;  (* push with B set *)
    set_flag CPU6502.FLAG_I true;;
    lo ← read_addr 0xFFFE; hi ← read_addr 0xFFFF;
    set_PC (Z.lor (Z.shiftl hi 8) lo);;
    add_cycles 7;; mret 7
  (* RTI *)
  else if opcode =? 0x40 then
    p ← pop;
    set_P (Z.land (Z.land p (Z.lnot 0x10)) 0xFF);;
    lo ← pop; hi ← pop;
    set_PC (Z.lor (Z.shiftl hi 8) lo);;
    add_cycles 6;; mret 6
  (* CLC/SEC/CLI/SEI *)
  else if opcode =? 0x18 then
    set_flag CPU6502.FLAG_C false;; add_cycles 2;; mret 2
  else if opcode =? 0x38 then
    set_flag CPU6502.FLAG_C true;; add_cycles 2;; mret 2
  else if opcode =? 0x58 then
    set_flag CPU6502.FLAG_I false;; add_cycles 2;; mret 2
  else if opcode =? 0x78 then
    set_flag CPU6502.FLAG_I true;; add_cycles 2;; mret 2
  (* PHA/PLA *)
  else if opcode =? 0x48 then
    a ← get_A; push a;; add_cycles 3;; mret 3
  else if opcode =? 0x68 then
    v ← pop; set_A v;; a ← get_A; update_zn a;; add_cycles 4;; mret 4
  (* Default fallback: treat as NOP *)
  else
    add_cycles 2;; mret 2.

Definition step : M Z :=
  opcode ← fetch_byte;
  execute opcode.

(** ** [NES.run_cpu_cycles]

    The NMI block at the head of the loop body. *)
Definition service_nmi : M unit :=
  modify (with_nmi_pending false);;
  pc ← get_PC;
  push (Z.land (Z.shiftr pc 8) 0xFF);; push (Z.land pc 0xFF);;
  p ← get_P;
  push (Z.land (Z.land p (Z.lnot 0x10)) 0xFF);;
  set_flag CPU6502.FLAG_I true;;
  lo ← cpu_read 0xFFFA; hi ← cpu_read 0xFFFB;
  set_PC (Z.lor (Z.shiftl hi 8) lo).

(** One iteration of [while cycles < target_cycles]. *)
Definition loop_body : M Z :=
  pending ← gets nmi_pending;
  (if (pending : bool) then service_nmi else mret tt);;
  step.

(** The [while] loop, unrolled at most [fuel] times; [None] only when
    the fuel runs out before the loop condition fails. *)
Fixpoint run_loop (fuel : nat) (target_cycles cycles : Z) (s : NES)
  : option (result (Z * NES)) :=
  if cycles <? target_cycles then
    match fuel with
    | O => None
    | S fuel' =>
        match loop_body s with
        | Ok (c, s') => run_loop fuel' target_cycles (cycles + c) s'
        | Raise e => Some (Raise e)
        end
    end
  else Some (Ok (cycles, s)).

Definition run_cpu_cycles (fuel : nat) (target_cycles : Z) (s : NES)
  : option (result (Z * NES)) :=
  run_loop fuel target_cycles 0 s.

(** [NES.frame]: run the CPU for a frame, render, latch the NMI. *)
Definition frame (fuel : nat) (s : NES)
  : option (result (Surface.t * NES)) :=
  let target_cpu_cycles := 29780 in
  match run_cpu_cycles fuel target_cpu_cycles s with
  | None => None
  | Some (Raise e) => Some (Raise e)
  | Some (Ok (_, s)) =>
      match render_frame (ppu s) with
      | Raise e => Some (Raise e)
      | Ok surf => Some (Ok (surf, with_nmi_pending true s))
      end
  end.

(** The fields [NES.__init__] creates for a loaded cartridge. *)
Definition NES_fields (rom : INESRom) : NES :=
  {| rom := rom; ram := bytearray 0x800; sram := bytearray 0x2000;
     prg := prg_rom rom; ppu := PPU.__init__ rom None;
     controller_state := [0; 0]; controller_shift := [0; 0];
     controller_strobe := 0; cpu := CPU6502.__init__;
     nmi_pending := false |}.

(** [NES.__init__], from the bytes of the ROM file. *)
Definition NES__init__ (f : file) : result NES :=
  rom ← _load f;
  '(_, s) ← reset (NES_fields rom);
  mret (with_nmi_pending false s).

(** ** Specification-side vocabulary *)

(** The pixel formula of the tile format. *)
Definition pixel_of_planes (p0 p1 x : Z) : Z :=
  Z.lor (Z.shiftl (Z.land (Z.shiftr p1 (7 - x)) 1) 1)
        (Z.land (Z.shiftr p0 (7 - x)) 1).

(** [pixels[y][x]] *)
Definition getitem2 (pixels : list (list Z)) (y x : Z) : result Z :=
  row ← getitem pixels y; getitem row x.

(** ** ROM images used as concrete inputs *)

(** The 16-byte iNES header. *)
Definition ines_header (prg_count chr_count flags6 flags7 : Z) : list Z :=
  NES_MAGIC ++ [prg_count; chr_count; flags6; flags7; 0; 0; 0; 0; 0; 0; 0; 0].

(** A PRG image of [size] bytes: [program] at its start, zero filled,
    with the NMI, RESET and IRQ vectors in its last six bytes. *)
Definition prg_image (program : list Z) (size nmi_vec reset_vec irq_vec : Z)
  : list Z :=
  program
  ++ replicate (Z.to_nat size - 6 - length program)%nat 0
  ++ [Z.land nmi_vec 0xFF; Z.shiftr nmi_vec 8;
      Z.land reset_vec 0xFF; Z.shiftr reset_vec 8;
      Z.land irq_vec 0xFF; Z.shiftr irq_vec 8].

(** Mapper 0, one PRG bank, CHR-RAM, horizontal mirroring. *)
Definition rom_horizontal : file :=
  ines_header 1 0 0x00 0x00 ++ prg_image [] 0x4000 0x8000 0x8000 0x8000.

(** Mapper 0, one PRG bank, CHR-RAM, vertical mirroring. *)
Definition rom_vertical : file :=
  ines_header 1 0 0x01 0x00 ++ prg_image [] 0x4000 0x8000 0x8000 0x8000.

(** Mapper 1 with three PRG banks: the vectors close the second bank,
    where a system that does not mirror reads them. *)
Definition rom_mapper1 : file :=
  ines_header 3 0 0x10 0x00
  ++ prg_image [] 0x8000 0x8000 0x8000 0x8000 ++ bytearray 0x4000.

(** A cartridge given directly by its fields, and the machine built on
    it after the CPU reset. *)
Definition cart (mir : mirror) (banks : Z) (prg : list Z) : INESRom :=
  {| prg_rom := prg; chr_rom := []; mapper := 0; mirroring := mir;
     prg_banks := banks; chr_banks := 0; trainer_present := false |}.

Definition machine (mir : mirror) (program : list Z) : NES :=
  let rom := cart mir 1 (prg_image program 0x4000 0x8000 0x8000 0x8000) in
  with_cpu (CPU6502.with_PC 0x8000 CPU6502.__init__) (NES_fields rom).

(** ** A PPU state exposing the colour of index-0 background pixels

    From power-on (CHR-RAM all zero, so every tile pixel has index 0):
    universal background [$3F00 = $0F], entry 0 of background
    subpalette 1 [$3F04 = $20], and attribute byte [$23C0 = $01], which
    selects subpalette 1 for the top-left 2x2 tiles. *)
Definition ppu_subpalette1 : result PPU.t :=
  p ← PPU.write (PPU.__init__ (cart horizontal 1 []) None) 0x3F00 0x0F;
  p ← PPU.write p 0x3F04 0x20;
  PPU.write p 0x23C0 0x01.

(** ** Status flags, on the specification side *)

(** The value [set_flag mask value] leaves in [P]. *)
Definition with_flag (p mask : Z) (value : bool) : Z :=
  if value then Z.lor p mask else Z.land p (Z.land (Z.lnot mask) 0xFF).


(** ** Machine invariants *)

(** Every element is a byte. *)
Definition bytes (l : list Z) : Prop := Forall (fun b => 0 <= b <= 255) l.

(** Boolean form of [bytes], for concrete buffers. *)
Definition bytesb (l : list Z) : bool :=
  forallb (fun b => (0 <=? b) && (b <=? 255)) l.

(** The PRG image covers every offset [cpu_read] can form: 16 KiB when
    the header declares one bank (reads are taken modulo 16 KiB), 32 KiB
    otherwise. *)
Definition prg_fits (s : NES) : Prop :=
  (if prg_banks (rom s) =? 1 then 0x4000 else 0x8000) <= len (prg s).

(** Buffer sizes fixed by [NES.__init__] and [PPU.__init__], together
    with a PRG image that covers the cartridge window. *)
Record wf (s : NES) : Prop := {
  wf_ram : len (ram s) = 0x800;
  wf_sram : len (sram s) = 0x2000;
  wf_oam : len (PPU.oam (ppu s)) = 256;
  wf_state : len (controller_state s) = 2;
  wf_shift : len (controller_shift s) = 2;
  wf_prg : prg_fits s
}.

(** The CPU-visible buffers hold bytes, as [bytearray] and [bytes] do. *)
Record mem_bytes (s : NES) : Prop := {
  mb_ram : bytes (ram s);
  mb_sram : bytes (sram s);
  mb_prg : bytes (prg s)
}.

(** The cartridge and the PPU memory a frame's background is drawn
    from are the same in [s] as in [s0]. *)
Definition picture_fixed (s0 s : NES) : Prop :=
  rom s = rom s0 /\ prg s = prg s0 /\
  PPU.chr (ppu s) = PPU.chr (ppu s0) /\
  PPU.vram (ppu s) = PPU.vram (ppu s0) /\
  PPU.palette (ppu s) = PPU.palette (ppu s0).

(** ** Outcomes of a method call

    [wp E m Q s]: running [m] from [s] returns a value and a state
    satisfying [Q], or raises and [E] holds. [E := False] asks for a
    normal return, [E := True] says nothing about raised exceptions. *)
Definition wp {A} (E : Prop) (m : M A) (Q : A -> NES -> Prop) (s : NES)
  : Prop :=
  match m s with
  | Ok (a, s') => Q a s'
  | Raise _ => E
  end.

(** [keeps I E m Q]: from any state satisfying the invariant [I], [m]
    returns a value satisfying [Q] in a state satisfying [I], or raises
    and [E] holds. *)
Definition keeps {A} (I : NES -> Prop) (E : Prop) (m : M A) (Q : A -> Prop)
  : Prop :=
  forall s, I s -> wp E m (fun a s' => Q a /\ I s') s.

(** The value a method call returns, dropping the final state. *)
Definition eval {A} (m : M A) (s : NES) : result A :=
  match m s with
  | Ok (a, _) => Ok a
  | Raise e => Raise e
  end.

(** ** Controller protocol, as a test drives it *)

(** Strobe written 1 then 0. *)
Definition latch : M unit :=
  cpu_write 0x4016 1;; cpu_write 0x4016 0.

(** [n] successive reads of a port, in order. *)
Fixpoint reads (port : Z) (n : nat) : M (list Z) :=
  match n with
  | O => mret []
  | S n' => v ← cpu_read port; vs ← reads port n'; mret (v :: vs)
  end.

(** What [n] reads of a shift register holding [x] return. *)
Fixpoint shift_out (x : Z) (n : nat) : list Z :=
  match n with
  | O => []
  | S n' => Z.lor (Z.land x 1) 0x40 :: shift_out (Z.shiftr x 1) n'
  end.

(** ** Opcodes [CPU6502.step] decodes, in source order *)



(** ** Input mapping and the event loop of [run] *)

(** The key codes [run] tells apart; [K_other] stands for any other
    key. *)
Inductive key :=
| K_x | K_z | K_RETURN | K_RSHIFT | K_UP | K_DOWN | K_LEFT | K_RIGHT
| K_ESCAPE | K_p | K_r | K_other.

#[global] Instance key_eq_dec : EqDecision key.
Proof. solve_decision. Defined.

(** [KEYMAP.get(k)] *)
Definition KEYMAP (k : key) : option Z :=
  match k with
  | K_x => Some 0        (* A *)
  | K_z => Some 1        (* B *)
  | K_RETURN => Some 2   (* START *)
  | K_RSHIFT => Some 3   (* SELECT *)
  | K_UP => Some 4
  | K_DOWN => Some 5
  | K_LEFT => Some 6
  | K_RIGHT => Some 7
  | _ => None
  end.

Inductive event :=
| QUIT
| KEYDOWN (k : key)
| KEYUP (k : key)
| other_event.

(** The local variables of [run] that events update. *)
Record run_state := {
  nes : NES;
  running : bool;
  paused : bool
}.

(** Body of [for ev in pygame.event.get()], for the ROM file
    [rom_path] names. *)
Definition handle_event (rom_path : file) (ev : event) (st : run_state)
  : result run_state :=
  match ev with
  | QUIT => Ok {| nes := nes st; running := false; paused := paused st |}
  | KEYDOWN k =>
      if bool_decide (k = K_ESCAPE) then
        Ok {| nes := nes st; running := false; paused := paused st |}
      else if bool_decide (k = K_p) then
        Ok {| nes := nes st; running := running st;
              paused := negb (paused st) |}
      else if bool_decide (k = K_r) then
        n ← NES__init__ rom_path;
        Ok {| nes := n; running := running st; paused := paused st |}
      else
        match KEYMAP k with
        | Some bit =>
            state0 ← getitem (controller_state (nes st)) 0;
            state ← setitem (controller_state (nes st)) 0
                      (Z.lor state0 (Z.shiftl 1 bit));
            Ok {| nes := with_controller_state state (nes st);
                  running := running st; paused := paused st |}
        | None => Ok st
        end
  | KEYUP k =>
      match KEYMAP k with
      | Some bit =>
          state0 ← getitem (controller_state (nes st)) 0;
          state ← setitem (controller_state (nes st)) 0
                    (Z.land state0 (Z.lnot (Z.shiftl 1 bit)));
          Ok {| nes := with_controller_state state (nes st);
                running := running st; paused := paused st |}
      | None => Ok st
      end
  | other_event => Ok st
  end.

(** [for ev in pygame.event.get(): ...] *)
Fixpoint handle_events (rom_path : file) (events : list event)
    (st : run_state) : result run_state :=
  match events with
  | [] => Ok st
  | ev :: rest => st ← handle_event rom_path ev st;
                  handle_events rom_path rest st
  end.

(** What a controller port returns for a button bit: bit 6 is always
    set. *)
Definition port_bit (b : bool) : Z := if b then 0x41 else 0x40.

(** ** Conditional branches, on the specification side *)



(** ** Well-formed PPU memory *)

(** Buffer sizes fixed by [PPU.__init__], with a pattern table that
    holds at least one whole tile ([PPU.__init__] copies a CHR-ROM
    image of any length). *)
Record ppu_wf (p : PPU.t) : Prop := {
  pw_chr : 16 <= len (PPU.chr p);
  pw_vram : len (PPU.vram p) = 0x800;
  pw_palette : len (PPU.palette p) = 32;
  pw_oam : len (PPU.oam p) = 256
}.

(** Eight rows of eight entries. *)
Definition tile_shape (tile : list (list Z)) : Prop :=
  len tile = 8 /\ Forall (fun row => len row = 8) tile.

(** ** ROM images on which a frame does not complete *)

(** One declared PRG bank whose image stops two bytes early: the RESET
    vector ([$8000]) closes the image, the IRQ vector is missing. The
    program is a single [BRK]. *)
Definition rom_prg_short : file :=
  ines_header 1 0 0x00 0x00 ++ bytearray 0x3FFC ++ [0x00; 0x80].

(** A full PRG bank running [JMP $8000], and a CHR-ROM image cut to ten
    bytes. *)
Definition rom_chr_short : file :=
  ines_header 1 1 0x00 0x00
  ++ prg_image [0x4C; 0x00; 0x80] 0x4000 0x8000 0x8000 0x8000
  ++ bytearray 10.

(** * Properties *)

(** ** Sequences *)

Lemma getitem_in_range {A} (l : list A) (i : Z) :
  0 <= i < len l -> exists v, getitem l i = Ok v /\ l !! Z.to_nat i = Some v.
Proof.
  intros [Hlo Hhi]. unfold getitem.
  destruct (Z.ltb_spec i 0) as [?|_]; [lia|].
  destruct (Z.leb_spec 0 i) as [_|?]; [|lia].
  destruct (Z.ltb_spec i (len l)) as [_|?]; [|lia]. simpl.
  destruct (l !! Z.to_nat i) as [v|] eqn:E; [eauto|].
  apply lookup_ge_None in E. unfold len in Hhi. lia.
Qed.

Lemma setitem_in_range {A} (l : list A) (i : Z) (v : A) :
  0 <= i < len l -> setitem l i v = Ok (<[Z.to_nat i := v]> l).
Proof.
  intros [Hlo Hhi]. unfold setitem.
  destruct (Z.ltb_spec i 0) as [?|_]; [lia|].
  destruct (Z.leb_spec 0 i) as [_|?]; [|lia].
  destruct (Z.ltb_spec i (len l)) as [_|?]; [|lia]. reflexivity.
Qed.

Lemma len_insert {A} (l : list A) (i : nat) (v : A) : len (<[i := v]> l) = len l.
Proof. unfold len. by rewrite length_insert. Qed.

Lemma land_1_cases (a : Z) : Z.land a 1 = 0 \/ Z.land a 1 = 1.
Proof.
  replace (Z.land a 1) with (a mod 2).
  2:{ symmetry. apply (Z.land_ones a 1). lia. }
  pose proof (Z.mod_pos_bound a 2 ltac:(lia)). lia.
Qed.

(** ** Tile decoding *)

Lemma pixel_of_planes_range (p0 p1 x : Z) : 0 <= pixel_of_planes p0 p1 x <= 3.
Proof.
  unfold pixel_of_planes.
  destruct (land_1_cases (Z.shiftr p1 (7 - x))) as [-> | ->];
    destruct (land_1_cases (Z.shiftr p0 (7 - x))) as [-> | ->];
    vm_compute; split; discriminate.
Qed.

Lemma decode_tile_8x8_rows (b0 b1 b2 b3 b4 b5 b6 b7 c0 c1 c2 c3 c4 c5 c6 c7 : Z) :
  decode_tile_8x8 [b0; b1; b2; b3; b4; b5; b6; b7; c0; c1; c2; c3; c4; c5; c6; c7]
  = Ok (map (fun '(p0, p1) => map (pixel_of_planes p0 p1) (range 8))
          [(b0, c0); (b1, c1); (b2, c2); (b3, c3);
           (b4, c4); (b5, c5); (b6, c6); (b7, c7)]).
Proof. reflexivity. Qed.

Lemma decode_tile_same (tile_bytes : list Z) :
  len tile_bytes = 16 ->
  nes_viewer.decode_tile tile_bytes = decode_tile_8x8 tile_bytes.
Proof.
  intros H. unfold nes_viewer.decode_tile. rewrite H. reflexivity.
Qed.

Ltac list16 l H :=
  do 16 (destruct l as [|? l]; [discriminate H|]);
  destruct l; [|discriminate H].

Ltac zcases x H :=
  assert (x = 0 \/ x = 1 \/ x = 2 \/ x = 3 \/ x = 4 \/ x = 5 \/ x = 6 \/ x = 7)
    as H by lia;
  destruct H as [->|[->|[->|[->|[->|[->|[->| ->]]]]]]].

(** C8. For every 16-byte tile, both tile decoders return the same 8x8
    matrix (eight rows of eight entries each), in which [pixel[y][x]] is
    [(((plane1[y] >> (7-x)) & 1) << 1) | ((plane0[y] >> (7-x)) & 1)]
    for all [0 <= x, y < 8], and every entry of the matrix lies in
    [0..3]. *)
Theorem decode_tile_8x8_correct (tile_bytes : list Z) :
  length tile_bytes = 16%nat ->
  exists pixels,
    decode_tile_8x8 tile_bytes = Ok pixels /\
    nes_viewer.decode_tile tile_bytes = Ok pixels /\
    len pixels = 8 /\
    Forall (fun row => len row = 8) pixels /\
    Forall (Forall (fun p => 0 <= p <= 3)) pixels /\
    forall x y, 0 <= x < 8 -> 0 <= y < 8 ->
      exists p0 p1,
        getitem (slice tile_bytes 0 8) y = Ok p0 /\
        getitem (slice tile_bytes 8 16) y = Ok p1 /\
        getitem2 pixels y x
          = Ok (Z.lor (Z.shiftl (Z.land (Z.shiftr p1 (7 - x)) 1) 1)
                      (Z.land (Z.shiftr p0 (7 - x)) 1)) /\
        0 <= Z.lor (Z.shiftl (Z.land (Z.shiftr p1 (7 - x)) 1) 1)
                   (Z.land (Z.shiftr p0 (7 - x)) 1) <= 3.
Proof.
  intros Hlen.
  assert (len tile_bytes = 16) as Hlen' by (unfold len; lia).
  rewrite (decode_tile_same _ Hlen').
  list16 tile_bytes Hlen.
  eexists. split; [apply decode_tile_8x8_rows|]. split; [reflexivity|].
  split; [reflexivity|].
  split; [rewrite List.Forall_map; repeat constructor|].
  split.
  { rewrite List.Forall_map.
    repeat (constructor;
            [cbv beta iota; rewrite List.Forall_map; apply Forall_forall;
             intros; apply pixel_of_planes_range|]).
    constructor. }
  intros x y Hx Hy.
  zcases y Hy'; (do 2 eexists; split; [reflexivity|]; split; [reflexivity|];
    split; [zcases x Hx'; reflexivity | apply pixel_of_planes_range]).
Qed.

Lemma decode_tile_8x8_correct_witness :
  exists pixels,
    decode_tile_8x8 [0xFF; 0; 0; 0; 0; 0; 0; 0; 0x0F; 0; 0; 0; 0; 0; 0; 0] = Ok pixels /\
    getitem2 pixels 0 0 = Ok 1 /\ getitem2 pixels 0 7 = Ok 3.
Proof.
  destruct (decode_tile_8x8_correct
              [0xFF; 0; 0; 0; 0; 0; 0; 0; 0x0F; 0; 0; 0; 0; 0; 0; 0] eq_refl)
    as (pixels & Hd & _ & _ & _ & _ & Hpix).
  exists pixels. split; [exact Hd|].
  destruct (Hpix 0 0 ltac:(lia) ltac:(lia)) as (p0 & p1 & H0 & H1 & Hp & _).
  destruct (Hpix 7 0 ltac:(lia) ltac:(lia)) as (q0 & q1 & G0 & G1 & Gp & _).
  vm_compute in H0, H1, G0, G1.
  injection H0 as <-. injection H1 as <-. injection G0 as <-. injection G1 as <-.
  split; [exact Hp | exact Gp].
Defined.

Lemma land_0xFF_byte (v : Z) : 0 <= v <= 255 -> Z.land v 0xFF = v.
Proof.
  intros H. change 0xFF with (Z.ones 8). rewrite Z.land_ones by lia.
  apply Z.mod_small. change (2 ^ 8) with 256. lia.
Qed.

Lemma getitem_insert_eq (l : list Z) (i v : Z) :
  0 <= i < len l -> getitem (<[Z.to_nat i := v]> l) i = Ok v.
Proof.
  intros H.
  destruct (getitem_in_range (<[Z.to_nat i := v]> l) i) as (w & Hw & Hl).
  { by rewrite len_insert. }
  rewrite list_lookup_insert_eq in Hl by (unfold len in H; lia).
  by injection Hl as ->.
Qed.

Lemma getitem_insert_ne (l : list Z) (i j v : Z) :
  0 <= i -> 0 <= j -> i <> j ->
  getitem (<[Z.to_nat i := v]> l) j = getitem l j.
Proof.
  intros Hi Hj Hne. unfold getitem. rewrite len_insert.
  destruct (Z.ltb_spec j 0) as [?|_]; [lia|].
  rewrite list_lookup_insert_ne by lia. reflexivity.
Qed.

(** ** PPU address decoding *)

(** C1, as the code has it. For every byte [v] and whatever the
    cartridge mirroring flag, a write of [v] to PPU [$2000] is read back
    at [$2800] (the index is the address masked with [$07FF]), and the
    byte read at [$2400] is the one that was there before the write. *)
Theorem ppu_nametable_fold (s : NES) (v : Z) :
  len (PPU.vram (ppu s)) = 2048 -> 0 <= v <= 255 ->
  exists p,
    PPU.write (ppu s) 0x2000 v = Ok p /\
    PPU.read p 0x2800 = Ok v /\
    PPU.read p 0x2400 = PPU.read (ppu s) 0x2400.
Proof.
  intros Hlen Hv. unfold PPU.write.
  change (Z.land 0x2000 0x3FFF) with 0x2000.
  change (0x2000 <? 0x2000) with false.
  change ((0x2000 <=? 0x2000) && (0x2000 <? 0x3F00)) with true.
  change (Z.land (0x2000 - 0x2000) 0x07FF) with 0. cbv iota.
  rewrite land_0xFF_byte by done.
  rewrite setitem_in_range by lia.
  eexists. split; [reflexivity|]. unfold PPU.read. cbn [PPU.vram PPU.with_vram].
  change (Z.land 0x2800 0x3FFF) with 0x2800.
  change (Z.land 0x2400 0x3FFF) with 0x2400.
  change (0x2800 <? 0x2000) with false.
  change (0x2400 <? 0x2000) with false.
  change ((0x2000 <=? 0x2800) && (0x2800 <? 0x3F00)) with true.
  change ((0x2000 <=? 0x2400) && (0x2400 <? 0x3F00)) with true.
  change (Z.land (0x2800 - 0x2000) 0x07FF) with 0.
  change (Z.land (0x2400 - 0x2000) 0x07FF) with 0x400. cbv iota.
  split.
  - apply (getitem_insert_eq _ 0). lia.
  - apply (getitem_insert_ne _ 0); lia.
Qed.

Lemma ppu_nametable_fold_witness :
  exists p,
    PPU.write (ppu (machine horizontal [])) 0x2000 0x55 = Ok p /\
    PPU.read p 0x2800 = Ok 0x55.
Proof.
  destruct (ppu_nametable_fold (machine horizontal []) 0x55 eq_refl
              ltac:(lia)) as (p & Hw & Hr & _).
  exists p. split; [exact Hw | exact Hr].
Defined.

(** C1 fails as stated: on a horizontally mirrored cartridge a write to
    [$2000] is not seen at [$2400] and is seen at [$2800]. *)
Lemma ppu_mirroring_counterexample :
  (s ← NES__init__ rom_horizontal;
   p ← PPU.write (ppu s) 0x2000 0x55;
   at_2400 ← PPU.read p 0x2400;
   at_2800 ← PPU.read p 0x2800;
   mret (mirroring (rom s), at_2400, at_2800))
  = Ok (horizontal, 0, 0x55).
Proof. vm_compute. reflexivity. Qed.

(** ** Evaluation of closed integer subterms *)

Ltac is_pos_lit p :=
  lazymatch p with
  | xH => idtac
  | xI ?q => is_pos_lit q
  | xO ?q => is_pos_lit q
  end.

Ltac is_Z_lit z :=
  lazymatch z with
  | Z0 => idtac
  | Zpos ?p => is_pos_lit p
  | Zneg ?p => is_pos_lit p
  end.

Ltac eval_closed t :=
  let r := eval vm_compute in t in change t with r.

(** Replaces each integer operation on literals by its value, then
    resolves the tests that became [true] or [false]. *)
Ltac zsimp :=
  repeat match goal with
    | |- context [Z.land ?a ?b] => is_Z_lit a; is_Z_lit b; eval_closed (Z.land a b)
    | |- context [Z.lor ?a ?b] => is_Z_lit a; is_Z_lit b; eval_closed (Z.lor a b)
    | |- context [Z.add ?a ?b] => is_Z_lit a; is_Z_lit b; eval_closed (Z.add a b)
    | |- context [Z.sub ?a ?b] => is_Z_lit a; is_Z_lit b; eval_closed (Z.sub a b)
    | |- context [Z.mul ?a ?b] => is_Z_lit a; is_Z_lit b; eval_closed (Z.mul a b)
    | |- context [Z.modulo ?a ?b] => is_Z_lit a; is_Z_lit b; eval_closed (Z.modulo a b)
    | |- context [Z.div ?a ?b] => is_Z_lit a; is_Z_lit b; eval_closed (Z.div a b)
    | |- context [Z.shiftl ?a ?b] => is_Z_lit a; is_Z_lit b; eval_closed (Z.shiftl a b)
    | |- context [Z.shiftr ?a ?b] => is_Z_lit a; is_Z_lit b; eval_closed (Z.shiftr a b)
    | |- context [Z.ltb ?a ?b] => is_Z_lit a; is_Z_lit b; eval_closed (Z.ltb a b)
    | |- context [Z.leb ?a ?b] => is_Z_lit a; is_Z_lit b; eval_closed (Z.leb a b)
    | |- context [Z.eqb ?a ?b] => is_Z_lit a; is_Z_lit b; eval_closed (Z.eqb a b)
    end;
  cbn [andb orb negb]; cbv iota.

(** C2, as the code has it. Palette RAM is indexed by
    [(addr - $3F00) % 32] and nothing more: for each of the four pairs
    and every byte [v], a write to [$3F10 + k] is read back there and
    leaves [$3F00 + k] as it was, and a write to [$3F00 + k] is read
    back there and leaves [$3F10 + k] as it was. *)
Theorem ppu_palette_no_alias (p : PPU.t) (k v : Z) :
  len (PPU.palette p) = 32 -> k = 0 \/ k = 4 \/ k = 8 \/ k = 12 ->
  0 <= v <= 255 ->
  (exists p',
     PPU.write p (0x3F10 + k) v = Ok p' /\
     PPU.read p' (0x3F10 + k) = Ok v /\
     PPU.read p' (0x3F00 + k) = PPU.read p (0x3F00 + k)) /\
  (exists p',
     PPU.write p (0x3F00 + k) v = Ok p' /\
     PPU.read p' (0x3F00 + k) = Ok v /\
     PPU.read p' (0x3F10 + k) = PPU.read p (0x3F10 + k)).
Proof.
  intros Hlen Hk Hv.
  destruct Hk as [->|[->|[->| ->]]];
    (split; unfold PPU.write; rewrite land_0xFF_byte by done; zsimp;
     rewrite setitem_in_range by lia;
     (eexists; split; [reflexivity|]);
     unfold PPU.read; cbn [PPU.palette PPU.with_palette]; zsimp;
     (split; [ apply getitem_insert_eq; lia
             | apply getitem_insert_ne; lia ])).
Qed.

Lemma ppu_palette_no_alias_witness :
  exists p',
    PPU.write (ppu (machine horizontal [])) 0x3F10 0x21 = Ok p' /\
    PPU.read p' 0x3F10 = Ok 0x21.
Proof.
  destruct (ppu_palette_no_alias (ppu (machine horizontal [])) 0 0x21 eq_refl
              (or_introl eq_refl) ltac:(lia)) as [(p' & Hw & Hr & _) _].
  exists p'. split; [exact Hw | exact Hr].
Defined.

(** C2 fails as stated: after power-on, a write to [$3F10] is not
    visible at [$3F00], nor a write to [$3F00] at [$3F10]. *)
Lemma ppu_palette_alias_counterexample :
  (s ← NES__init__ rom_horizontal;
   p ← PPU.write (ppu s) 0x3F10 0x21;
   at_3F00 ← PPU.read p 0x3F00;
   q ← PPU.write (ppu s) 0x3F00 0x21;
   at_3F10 ← PPU.read q 0x3F10;
   mret (at_3F00, at_3F10))
  = Ok (0, 0).
Proof. vm_compute. reflexivity. Qed.

(** ** Cartridge loading *)

Lemma len_take_16 (f : file) : len (take (Z.to_nat 16) f) = Z.min 16 (len f).
Proof. unfold len. rewrite length_take. lia. Qed.

Lemma slice_header_magic (f : file) :
  slice (take (Z.to_nat 16) f) 0 4 = take 4 f.
Proof.
  unfold slice. change (Z.to_nat (4 - 0)) with 4%nat.
  change (Z.to_nat 0) with 0%nat. rewrite drop_0, take_take.
  change (Z.to_nat 16) with 16%nat. reflexivity.
Qed.

Lemma load_rejects (f : file) :
  len f < 16 \/ take 4 f <> NES_MAGIC ->
  _load f = Raise ValueError /\ nes_viewer._load f = Raise ValueError.
Proof.
  intros H. unfold _load, nes_viewer._load, f_read.
  rewrite len_take_16, slice_header_magic. unfold list_Z_eqb.
  destruct (Z.ltb_spec (Z.min 16 (len f)) 16) as [Hs|Hs]; [done|].
  destruct H as [H|H]; [lia|].
  rewrite bool_decide_eq_false_2 by done. done.
Qed.

Lemma f_read_16 (b0 b1 b2 b3 b4 b5 b6 b7 b8 b9 b10 b11 b12 b13 b14 b15 : Z)
    (f : list Z) :
  f_read 16 (b0 :: b1 :: b2 :: b3 :: b4 :: b5 :: b6 :: b7 :: b8 :: b9 :: b10
             :: b11 :: b12 :: b13 :: b14 :: b15 :: f)
  = ([b0; b1; b2; b3; b4; b5; b6; b7; b8; b9; b10; b11; b12; b13; b14; b15], f).
Proof. reflexivity. Qed.

Lemma load_accepts (f : file) :
  16 <= len f -> take 4 f = NES_MAGIC ->
  exists r r' banks flags6 flags7,
    f !! 4%nat = Some banks /\ f !! 6%nat = Some flags6 /\
    f !! 7%nat = Some flags7 /\
    _load f = Ok r /\ nes_viewer._load f = Ok r' /\
    prg_banks r = banks /\ nes_viewer.prg_banks r' = banks /\
    mapper r = Z.lor (Z.shiftl (Z.shiftr flags7 4) 4) (Z.shiftr flags6 4) /\
    nes_viewer.mapper r' = mapper r.
Proof.
  intros Hlen Hmagic. unfold len in Hlen.
  do 16 (destruct f as [|? f]; [simpl in Hlen; lia|]).
  injection Hmagic as -> -> -> ->. clear Hlen.
  unfold nes_viewer._load. rewrite f_read_16. cbv beta iota.
  match goal with |- context [len ?h <? 16] =>
    change (len h <? 16) with false;
    change (slice h 0 4) with NES_MAGIC;
    change (slice h 4 11) with (drop 4 (take 11 h))
  end.
  change (list_Z_eqb NES_MAGIC NES_MAGIC) with true.
  cbn [negb take drop]. cbv beta iota.
  match goal with |- context [truthy (Z.land ?x 4)] =>
    destruct (truthy (Z.land x 4))
  end; cbv beta iota; unfold f_read at 1 2; cbv beta iota;
    do 5 eexists; (repeat (split; [reflexivity|])); apply Z.lor_comm.
Qed.

(** ** Masks *)

Lemma land_ones_range (a : Z) (k : Z) :
  0 <= k -> 0 <= Z.land a (Z.ones k) < 2 ^ k.
Proof.
  intros Hk. rewrite Z.land_ones by done. apply Z.mod_pos_bound. lia.
Qed.

Lemma land_0xFFFF_range (a : Z) : 0 <= Z.land a 0xFFFF <= 0xFFFF.
Proof. pose proof (land_ones_range a 16 ltac:(lia)) as H.
  change (Z.ones 16) with 0xFFFF in H. change (2 ^ 16) with 65536 in H. lia. Qed.

Lemma land_0x07FF_range (a : Z) : 0 <= Z.land a 0x07FF < 0x800.
Proof. exact (land_ones_range a 11 ltac:(lia)). Qed.

Lemma land_0xFF_range (a : Z) : 0 <= Z.land a 0xFF <= 255.
Proof. pose proof (land_ones_range a 8 ltac:(lia)) as H.
  change (Z.ones 8) with 0xFF in H. change (2 ^ 8) with 256 in H. lia. Qed.

Lemma land_0xFFFF_id (a : Z) : 0 <= a <= 0xFFFF -> Z.land a 0xFFFF = a.
Proof.
  intros H. change 0xFFFF with (Z.ones 16). rewrite Z.land_ones by lia.
  apply Z.mod_small. change (2 ^ 16) with 65536. lia.
Qed.

Lemma getitem_bytes (l : list Z) (i v : Z) :
  bytes l -> getitem l i = Ok v -> 0 <= v <= 255.
Proof.
  intros Hb. unfold getitem.
  destruct ((0 <=? _) && _); [|discriminate].
  destruct (l !! _) as [w|] eqn:E; [|discriminate].
  intros [= <-]. unfold bytes in Hb. rewrite Forall_lookup in Hb. eauto.
Qed.

Lemma bytesb_bytes (l : list Z) : bytesb l = true -> bytes l.
Proof.
  unfold bytesb, bytes. rewrite forallb_forall, Forall_forall.
  intros H b Hb. apply list_elem_of_In in Hb. specialize (H b Hb). lia.
Qed.

(** ** Running methods *)

Ltac run :=
  unfold mbind, M_bind, mret, M_ret, gets, modify, lift; cbv beta iota.

(** Splits on the first integer test of the goal. *)
Ltac case_test :=
  match goal with
  | |- context [?x <=? ?y] => destruct (Z.leb_spec x y)
  | |- context [?x <? ?y] => destruct (Z.ltb_spec x y)
  | |- context [?x =? ?y] => destruct (Z.eqb_spec x y)
  end; cbn [andb orb negb]; cbv iota.

(** ** The CPU bus *)

Lemma cpu_read_masks (addr : Z) : cpu_read addr = cpu_read (Z.land addr 0xFFFF).
Proof.
  unfold cpu_read.
  rewrite (land_0xFFFF_id (Z.land addr 0xFFFF)) by apply land_0xFFFF_range.
  reflexivity.
Qed.

(** C10. With one or two declared PRG banks and a PRG image of the full
    declared length, [cpu_read] returns a byte for every address of the
    16-bit space and never raises; the unmapped region reads 0 without
    touching the state, and a one-bank PRG is read modulo 16 KiB. *)
Theorem cpu_read_total (s : NES) (addr : Z) :
  prg_banks (rom s) = 1 \/ prg_banks (rom s) = 2 ->
  len (prg s) = prg_banks (rom s) * 16384 ->
  len (ram s) = 0x800 -> len (sram s) = 0x2000 ->
  len (controller_shift s) = 2 ->
  mem_bytes s ->
  0 <= addr <= 0xFFFF ->
  exists v s',
    cpu_read addr s = Ok (v, s') /\ 0 <= v <= 255 /\
    (0x4020 <= addr <= 0x5FFF -> v = 0 /\ s' = s) /\
    (prg_banks (rom s) = 1 -> 0x8000 <= addr ->
     getitem (prg s) ((addr - 0x8000) mod 16384) = Ok v /\ s' = s).
Proof.
  intros Hbanks Hprg Hram Hsram Hshift [Bram Bsram Bprg] Haddr.
  unfold cpu_read. rewrite (land_0xFFFF_id addr) by done.
  repeat (case_test; try lia).
  - (* work RAM *)
    destruct (getitem_in_range (ram s) (Z.land addr 0x07FF)) as (v & Hv & _).
    { pose proof (land_0x07FF_range addr). lia. }
    run. rewrite Hv. exists v, s. split; [done|].
    split; [exact (getitem_bytes _ _ _ Bram Hv)|]. split; intros; lia.
  - (* PPU registers *)
    run. exists 0, s. repeat split; try lia.
  - (* controller 1 *)
    subst addr.
    destruct (getitem_in_range (controller_shift s) 0) as (c & Hc & _); [lia|].
    run. rewrite Hc. rewrite setitem_in_range by lia.
    eexists _, _. split; [reflexivity|].
    split; [destruct (land_1_cases c) as [-> | ->]; vm_compute; split; discriminate|].
    split; intros; lia.
  - (* controller 2 *)
    subst addr.
    destruct (getitem_in_range (controller_shift s) 1) as (c & Hc & _); [lia|].
    run. rewrite Hc. rewrite setitem_in_range by lia.
    eexists _, _. split; [reflexivity|].
    split; [destruct (land_1_cases c) as [-> | ->]; vm_compute; split; discriminate|].
    split; intros; lia.
  - (* other I/O *)
    run. exists 0, s. repeat split; try lia.
  - (* cartridge SRAM *)
    destruct (getitem_in_range (sram s) (addr - 0x6000)) as (v & Hv & _); [lia|].
    run. rewrite Hv. exists v, s. split; [done|].
    split; [exact (getitem_bytes _ _ _ Bsram Hv)|]. split; intros; lia.
  - (* PRG *)
    run. destruct Hbanks as [Hb|Hb]; rewrite Hb in *; zsimp.
    + destruct (getitem_in_range (prg s) ((addr - 0x8000) mod 16384))
        as (v & Hv & _).
      { pose proof (Z.mod_pos_bound (addr - 0x8000) 16384 ltac:(lia)). lia. }
      rewrite Hv. exists v, s. split; [done|].
      split; [exact (getitem_bytes _ _ _ Bprg Hv)|]. split; [intros; lia|]. done.
    + destruct (getitem_in_range (prg s) (addr - 0x8000)) as (v & Hv & _); [lia|].
      rewrite Hv. exists v, s. split; [done|].
      split; [exact (getitem_bytes _ _ _ Bprg Hv)|]. split; intros; lia.
  - (* $4020-$5FFF *)
    run. exists 0, s. repeat split; try lia.
Qed.

Lemma cpu_read_total_witness :
  exists v s',
    cpu_read 0x8001 (machine horizontal [0xA9; 0x42]) = Ok (v, s') /\
    0 <= v <= 255.
Proof.
  destruct (cpu_read_total (machine horizontal [0xA9; 0x42]) 0x8001
              (or_introl eq_refl) eq_refl eq_refl eq_refl eq_refl)
    as (v & s' & Hr & Hv & _).
  - split; apply bytesb_bytes; vm_compute; reflexivity.
  - lia.
  - exists v, s'. split; [exact Hr | exact Hv].
Defined.

(** ** Controller ports *)

Lemma cpu_read_port1 (s : NES) (x y : Z) :
  controller_shift s = [x; y] ->
  cpu_read 0x4016 s
  = Ok (Z.lor (Z.land x 1) 0x40, with_controller_shift [Z.shiftr x 1; y] s).
Proof. intros H. unfold cpu_read. zsimp. run. rewrite H. reflexivity. Qed.

Lemma cpu_read_port2 (s : NES) (x y : Z) :
  controller_shift s = [x; y] ->
  cpu_read 0x4017 s
  = Ok (Z.lor (Z.land y 1) 0x40, with_controller_shift [x; Z.shiftr y 1] s).
Proof. intros H. unfold cpu_read. zsimp. run. rewrite H. reflexivity. Qed.

Lemma latch_loads (s : NES) (b0 b1 : Z) :
  controller_state s = [b0; b1] -> len (controller_shift s) = 2 ->
  exists s', latch s = Ok (tt, s') /\ controller_shift s' = [b0; b1].
Proof.
  intros Hst Hsh. unfold len in Hsh. destruct s as [? ? ? ? ? st sh ? ? ?].
  cbn [controller_state controller_shift] in Hst, Hsh. subst st.
  destruct sh as [|c0 [|c1 [|]]]; try (simpl in Hsh; lia).
  eexists. split; reflexivity.
Qed.

Lemma reads_port1 (n : nat) : forall (s : NES) (x y : Z),
  controller_shift s = [x; y] ->
  exists s',
    reads 0x4016 n s = Ok (shift_out x n, s') /\
    controller_shift s' = [Nat.iter n (fun r => Z.shiftr r 1) x; y].
Proof.
  induction n as [|n IH]; intros s x y H.
  - exists s. split; [reflexivity | exact H].
  - destruct (IH (with_controller_shift [Z.shiftr x 1; y] s) (Z.shiftr x 1) y
                eq_refl) as (s' & Hr & Hs).
    exists s'. split.
    + cbn [reads]. run. rewrite (cpu_read_port1 s x y H), Hr. reflexivity.
    + rewrite Hs, Nat.iter_succ_r. reflexivity.
Qed.

Lemma reads_port2 (n : nat) : forall (s : NES) (x y : Z),
  controller_shift s = [x; y] ->
  exists s',
    reads 0x4017 n s = Ok (shift_out y n, s') /\
    controller_shift s' = [x; Nat.iter n (fun r => Z.shiftr r 1) y].
Proof.
  induction n as [|n IH]; intros s x y H.
  - exists s. split; [reflexivity | exact H].
  - destruct (IH (with_controller_shift [x; Z.shiftr y 1] s) x (Z.shiftr y 1)
                eq_refl) as (s' & Hr & Hs).
    exists s'. split.
    + cbn [reads]. run. rewrite (cpu_read_port2 s x y H), Hr. reflexivity.
    + rewrite Hs, Nat.iter_succ_r. reflexivity.
Qed.

Lemma byte_shifted_out (b : Z) :
  0 <= b <= 255 -> Nat.iter 8 (fun r => Z.shiftr r 1) b = 0.
Proof.
  intros Hb.
  change (Z.shiftr (Z.shiftr (Z.shiftr (Z.shiftr (Z.shiftr (Z.shiftr
            (Z.shiftr (Z.shiftr b 1) 1) 1) 1) 1) 1) 1) 1 = 0).
  rewrite !Z.shiftr_shiftr by lia.
  change (1 + (1 + (1 + (1 + (1 + (1 + (1 + 1))))))) with 8.
  rewrite Z.shiftr_div_pow2 by lia. change (2 ^ 8) with 256.
  apply Z.div_small. lia.
Qed.

Lemma shift_out_empty (k : nat) : shift_out 0 k = replicate k 0x40.
Proof. induction k as [|k IH]; [reflexivity|]. cbn [shift_out replicate].
  change (Z.shiftr 0 1) with 0. rewrite IH. reflexivity. Qed.

(** C6, as the code has it. After the buttons are latched and eight
    reads of a port have consumed the eight button bits, every further
    read of that port returns [0x40]: bit 6 set and 0 in bit 0, for any
    latched button state. *)
Theorem controller_reads_after_eight (s : NES) (port : Z) (b0 b1 : Z) (k : nat) :
  controller_state s = [b0; b1] -> 0 <= b0 <= 255 -> 0 <= b1 <= 255 ->
  len (controller_shift s) = 2 ->
  port = 0x4016 \/ port = 0x4017 ->
  exists bits s',
    (latch;; reads port 8) s = Ok (bits, s') /\
    bits = shift_out (if port =? 0x4016 then b0 else b1) 8 /\
    exists s'', reads port k s' = Ok (replicate k 0x40, s'').
Proof.
  intros Hst Hb0 Hb1 Hsh Hport.
  destruct (latch_loads s b0 b1 Hst Hsh) as (s1 & Hl & Hs1).
  destruct Hport as [-> | ->]; zsimp.
  - destruct (reads_port1 8 s1 b0 b1 Hs1) as (s2 & Hr & Hs2).
    rewrite byte_shifted_out in Hs2 by done.
    destruct (reads_port1 k s2 0 b1 Hs2) as (s3 & Hk & _).
    exists (shift_out b0 8), s2. split; [|split; [reflexivity|]].
    + unfold mbind, M_bind. rewrite Hl. exact Hr.
    + exists s3. rewrite Hk, shift_out_empty. reflexivity.
  - destruct (reads_port2 8 s1 b0 b1 Hs1) as (s2 & Hr & Hs2).
    rewrite byte_shifted_out in Hs2 by done.
    destruct (reads_port2 k s2 b0 0 Hs2) as (s3 & Hk & _).
    exists (shift_out b1 8), s2. split; [|split; [reflexivity|]].
    + unfold mbind, M_bind. rewrite Hl. exact Hr.
    + exists s3. rewrite Hk, shift_out_empty. reflexivity.
Qed.

Lemma controller_reads_after_eight_witness :
  exists bits s' s'',
    (latch;; reads 0x4016 8)
      (with_controller_state [0x89; 0] (machine horizontal []))
    = Ok (bits, s') /\
    bits = [0x41; 0x40; 0x40; 0x41; 0x40; 0x40; 0x40; 0x41] /\
    reads 0x4016 3 s' = Ok ([0x40; 0x40; 0x40], s'').
Proof.
  destruct (controller_reads_after_eight
              (with_controller_state [0x89; 0] (machine horizontal []))
              0x4016 0x89 0 3 eq_refl ltac:(lia) ltac:(lia) eq_refl
              (or_introl eq_refl))
    as (bits & s' & Hr & Hbits & s'' & Hk).
  exists bits, s', s''. split; [exact Hr|]. split; [exact Hbits | exact Hk].
Defined.

(** C6 fails as stated: with every button held, the ninth read after
    latching has 0 in bit 0, on either port. *)
Lemma controller_terminator_counterexample :
  eval (latch;; reads 0x4016 8;; v ← cpu_read 0x4016; mret (v, Z.land v 1))
       (with_controller_state [0xFF; 0xFF] (machine horizontal []))
  = Ok (0x40, 0) /\
  eval (latch;; reads 0x4017 8;; v ← cpu_read 0x4017; mret (v, Z.land v 1))
       (with_controller_state [0xFF; 0xFF] (machine horizontal []))
  = Ok (0x40, 0).
Proof. split; vm_compute; reflexivity. Qed.

(** ** Stack and interrupt sequence *)

Lemma bind_ok {A B} (m : M A) (f : A -> M B) (s s' : NES) (a : A) :
  m s = Ok (a, s') -> (m ≫= f) s = f a s'.
Proof. intros H. unfold mbind, M_bind. rewrite H. reflexivity. Qed.

Lemma land_0x07FF_id (a : Z) : 0 <= a <= 0x7FF -> Z.land a 0x07FF = a.
Proof.
  intros H. change 0x07FF with (Z.ones 11). rewrite Z.land_ones by lia.
  apply Z.mod_small. change (2 ^ 11) with 2048. lia.
Qed.

Lemma land_0xFF_idemp (v : Z) : Z.land (Z.land v 0xFF) 0xFF = Z.land v 0xFF.
Proof. apply land_0xFF_byte, land_0xFF_range. Qed.

(** A write below [$0800] stores the byte in work RAM. *)
Lemma cpu_write_ram (s : NES) (a v : Z) :
  0 <= a <= 0x7FF -> len (ram s) = 0x800 ->
  cpu_write a v s
  = Ok (tt, with_ram (<[Z.to_nat a := Z.land v 0xFF]> (ram s)) s).
Proof.
  intros Ha Hlen. unfold cpu_write.
  rewrite (land_0xFFFF_id a) by lia. rewrite (land_0x07FF_id a) by lia.
  repeat (case_test; try lia). run.
  rewrite setitem_in_range by lia. reflexivity.
Qed.

(** [push] stores at [$0100 + SP] and decrements [SP] modulo 256. *)
Lemma push_spec (s : NES) (v : Z) :
  0 <= CPU6502.SP (cpu s) <= 255 -> len (ram s) = 0x800 ->
  push v s
  = Ok (tt,
        with_cpu (CPU6502.with_SP (Z.land (CPU6502.SP (cpu s) - 1) 0xFF) (cpu s))
          (with_ram
             (<[Z.to_nat (0x100 + CPU6502.SP (cpu s)) := Z.land v 0xFF]> (ram s))
             s)).
Proof.
  intros Hsp Hlen. unfold push, get_SP, set_SP.
  erewrite bind_ok by reflexivity.
  erewrite bind_ok by (apply cpu_write_ram; [lia | exact Hlen]).
  rewrite land_0xFF_idemp. reflexivity.
Qed.

(** Reads of the cartridge window depend on the cartridge only. *)
Lemma cpu_read_prg_frame (s s' : NES) (a v : Z) :
  0x8000 <= a <= 0xFFFF -> rom s' = rom s -> prg s' = prg s ->
  cpu_read a s = Ok (v, s) -> cpu_read a s' = Ok (v, s').
Proof.
  intros Ha Hrom Hprg. unfold cpu_read.
  rewrite (land_0xFFFF_id a) by lia.
  repeat (case_test; try lia). run. rewrite Hrom, Hprg.
  destruct (prg_banks (rom s) =? 1);
    (destruct (getitem (prg s) _); [intros [= <-]; reflexivity | discriminate]).
Qed.

(** ** Construction of the system *)

Lemma getitem_past_end {A} (l : list A) (i : Z) :
  len l <= i -> getitem l i = Raise IndexError.
Proof.
  intros H. unfold getitem. unfold len in *.
  destruct (Z.ltb_spec i 0) as [?|_]; [lia|].
  destruct (Z.ltb_spec i (Z.of_nat (length l))) as [?|_]; [lia|].
  by rewrite andb_false_r.
Qed.

(** A read of the cartridge window is a read of the PRG image. *)
Lemma cpu_read_prg (s : NES) (a : Z) :
  0x8000 <= a <= 0xFFFF ->
  cpu_read a s
  = (v ← getitem (prg s)
           (if prg_banks (rom s) =? 1 then (a - 0x8000) mod 0x4000
            else a - 0x8000);
     mret (v, s)).
Proof.
  intros Ha. unfold cpu_read. rewrite (land_0xFFFF_id a) by lia.
  run. change (16 * 1024) with 0x4000.
  repeat (case_test; try lia);
    match goal with |- context [getitem ?l ?i] => destruct (getitem l i) end;
    reflexivity.
Qed.

Lemma bind_raise {A B} (m : M A) (f : A -> M B) (s : NES) (e : exn) :
  m s = Raise e -> (m ≫= f) s = Raise e.
Proof. intros H. unfold mbind, M_bind. rewrite H. reflexivity. Qed.

(** [reset] loads [PC] from the vector at [$FFFC], which lies at
    offset [0x3FFC] of a one-bank PRG image and [0x7FFC] otherwise. *)
Lemma reset_spec (s : NES) :
  let off := if prg_banks (rom s) =? 1 then 0x3FFC else 0x7FFC in
  (len (prg s) <= off + 1 -> reset s = Raise IndexError) /\
  (off + 1 < len (prg s) ->
   exists lo hi,
     prg s !! Z.to_nat off = Some lo /\
     prg s !! Z.to_nat (off + 1) = Some hi /\
     reset s
     = Ok (tt, with_cpu
                 (CPU6502.with_P 0x24
                    (CPU6502.with_SP 0xFD
                       (CPU6502.with_PC (Z.lor lo (Z.shiftl hi 8)) (cpu s))))
                 s)).
Proof.
  intros off. unfold reset, set_PC, set_SP, set_P.
  assert ((if prg_banks (rom s) =? 1 then (0xFFFC - 0x8000) mod 0x4000
           else 0xFFFC - 0x8000) = off) as E0
    by (unfold off; by destruct (prg_banks (rom s) =? 1)).
  assert ((if prg_banks (rom s) =? 1 then (0xFFFD - 0x8000) mod 0x4000
           else 0xFFFD - 0x8000) = off + 1) as E1
    by (unfold off; by destruct (prg_banks (rom s) =? 1)).
  assert (0 <= off)
    by (unfold off; destruct (prg_banks (rom s) =? 1); lia).
  split.
  - intros Hshort.
    destruct (Z.le_gt_cases (len (prg s)) off) as [Hle|Hgt].
    + apply bind_raise. rewrite cpu_read_prg, E0 by lia.
      by rewrite getitem_past_end.
    + destruct (getitem_in_range (prg s) off) as (lo & Glo & _); [lia|].
      erewrite bind_ok by (rewrite cpu_read_prg, E0, Glo by lia; reflexivity).
      apply bind_raise. rewrite cpu_read_prg, E1 by lia.
      by rewrite getitem_past_end by lia.
  - intros Hlong.
    destruct (getitem_in_range (prg s) off) as (lo & Glo & Llo); [lia|].
    destruct (getitem_in_range (prg s) (off + 1)) as (hi & Ghi & Lhi); [lia|].
    exists lo, hi. split; [exact Llo|]. split; [exact Lhi|].
    erewrite bind_ok by (rewrite cpu_read_prg, E0, Glo by lia; reflexivity).
    erewrite bind_ok by (rewrite cpu_read_prg, E1, Ghi by lia; reflexivity).
    reflexivity.
Qed.

(** C7, as the code has it. Both loaders raise exactly when the file
    is shorter than the 16-byte header or does not start with the
    signature; otherwise they return a cartridge whose PRG bank count
    and mapper number are whatever the header bytes say, unchecked. On
    a cartridge that loaded, the system is built whenever the PRG image
    covers both bytes of the reset vector (offset [0x3FFC] of the image
    when one bank is declared, [0x7FFC] otherwise), with [PC] the word
    stored there; when it does not, construction raises [IndexError]. *)
Theorem load_checks_signature_only (f : file) :
  (len f < 16 \/ take 4 f <> NES_MAGIC ->
   _load f = Raise ValueError /\ nes_viewer._load f = Raise ValueError) /\
  (16 <= len f -> take 4 f = NES_MAGIC ->
   exists r r' banks flags6 flags7,
     f !! 4%nat = Some banks /\ f !! 6%nat = Some flags6 /\
     f !! 7%nat = Some flags7 /\
     _load f = Ok r /\ nes_viewer._load f = Ok r' /\
     prg_banks r = banks /\ nes_viewer.prg_banks r' = banks /\
     mapper r = Z.lor (Z.shiftl (Z.shiftr flags7 4) 4) (Z.shiftr flags6 4) /\
     nes_viewer.mapper r' = mapper r) /\
  (forall r, _load f = Ok r ->
     let off := if prg_banks r =? 1 then 0x3FFC else 0x7FFC in
     (off + 1 < len (prg_rom r) ->
      exists lo hi,
        prg_rom r !! Z.to_nat off = Some lo /\
        prg_rom r !! Z.to_nat (off + 1) = Some hi /\
        NES__init__ f
        = Ok (with_cpu (CPU6502.with_PC (Z.lor lo (Z.shiftl hi 8))
                          CPU6502.__init__)
                (NES_fields r))) /\
     (len (prg_rom r) <= off + 1 -> NES__init__ f = Raise IndexError)).
Proof.
  split; [apply load_rejects|]. split; [apply load_accepts|].
  intros r Hload off. unfold NES__init__. rewrite Hload.
  cbn [mbind result_bind].
  destruct (reset_spec (NES_fields r)) as [Hraise Hok].
  split.
  - intros Hlong. destruct (Hok Hlong) as (lo & hi & Hlo & Hhi & ->).
    exists lo, hi. split; [exact Hlo|]. split; [exact Hhi|]. reflexivity.
  - intros Hshort. by rewrite Hraise.
Qed.

Lemma load_checks_signature_only_witness :
  exists r, _load rom_mapper1 = Ok r /\ prg_banks r = 3 /\ mapper r = 1.
Proof.
  destruct (load_checks_signature_only rom_mapper1) as [_ [H _]].
  destruct (H ltac:(vm_compute; discriminate) eq_refl)
    as (r & r' & banks & flags6 & flags7 & H4 & H6 & H7 & Hr & _ & Hb & _ & Hm & _).
  exists r. split; [exact Hr|].
  vm_compute in H4, H6, H7.
  injection H4 as <-. injection H6 as <-. injection H7 as <-.
  split; [exact Hb | exact Hm].
Defined.

(** C7 fails as stated: an image declaring mapper 1 and three PRG banks
    is loaded by both loaders, and the system is built on it. *)
Lemma load_unsupported_counterexample :
  (r ← _load rom_mapper1;
   r' ← nes_viewer._load rom_mapper1;
   s ← NES__init__ rom_mapper1;
   mret (mapper r, prg_banks r, nes_viewer.mapper r', nes_viewer.prg_banks r',
         mapper (rom s), prg_banks (rom s), CPU6502.PC (cpu s)))
  = Ok (1, 3, 1, 3, 1, 3, 0x8000).
Proof. vm_compute. reflexivity. Qed.

(** C5, as the code has it. Servicing a pending NMI pushes the high
    byte of [PC], then the low byte, then [P & ~0x10 & 0xFF] (B cleared,
    bit 5 as it is in [P]), sets the I flag, and loads [PC] from the
    little-endian word at [$FFFA/$FFFB]. *)
Theorem service_nmi_sequence (s : NES) (lo hi : Z) :
  len (ram s) = 0x800 -> 0 <= CPU6502.SP (cpu s) <= 255 ->
  cpu_read 0xFFFA s = Ok (lo, s) -> cpu_read 0xFFFB s = Ok (hi, s) ->
  let pc := CPU6502.PC (cpu s) in
  let p := CPU6502.P (cpu s) in
  let sp := CPU6502.SP (cpu s) in
  let sp1 := Z.land (sp - 1) 0xFF in
  let sp2 := Z.land (sp1 - 1) 0xFF in
  let sp3 := Z.land (sp2 - 1) 0xFF in
  service_nmi s
  = Ok (tt,
        with_cpu
          {| CPU6502.A := CPU6502.A (cpu s); CPU6502.X := CPU6502.X (cpu s);
             CPU6502.Y := CPU6502.Y (cpu s);
             CPU6502.PC := Z.lor (Z.shiftl hi 8) lo;
             CPU6502.SP := sp3;
             CPU6502.P := Z.lor p 0x04;
             CPU6502.cycles := CPU6502.cycles (cpu s) |}
          (with_ram
             (<[Z.to_nat (0x100 + sp2) := Z.land (Z.land p (Z.lnot 0x10)) 0xFF]>
                (<[Z.to_nat (0x100 + sp1) := Z.land pc 0xFF]>
                   (<[Z.to_nat (0x100 + sp) := Z.land (Z.shiftr pc 8) 0xFF]>
                      (ram s))))
             (with_nmi_pending false s))).
Proof.
  intros Hlen Hsp Hlo Hhi; intros.
  unfold service_nmi, get_PC, get_P, set_PC, set_flag.
  erewrite bind_ok by reflexivity.
  erewrite bind_ok by reflexivity.
  erewrite bind_ok by (apply push_spec; [exact Hsp | exact Hlen]).
  erewrite bind_ok.
  2:{ apply push_spec; cbn [cpu with_cpu ram with_ram CPU6502.SP CPU6502.with_SP
        with_nmi_pending].
      - apply land_0xFF_range.
      - rewrite len_insert. exact Hlen. }
  erewrite bind_ok by reflexivity.
  erewrite bind_ok.
  2:{ apply push_spec; cbn [cpu with_cpu ram with_ram CPU6502.SP CPU6502.with_SP
        with_nmi_pending].
      - apply land_0xFF_range.
      - rewrite !len_insert. exact Hlen. }
  erewrite bind_ok by reflexivity.
  erewrite bind_ok by (eapply cpu_read_prg_frame; [lia | | | exact Hlo]; reflexivity).
  erewrite bind_ok by (eapply cpu_read_prg_frame; [lia | | | exact Hhi]; reflexivity).
  rewrite !land_0xFF_idemp.
  destruct s as [? ? ? ? ? ? ? ? c ?]; destruct c. reflexivity.
Qed.

Lemma service_nmi_sequence_witness :
  exists s',
    service_nmi (machine horizontal []) = Ok (tt, s') /\
    CPU6502.PC (cpu s') = 0x8000 /\ CPU6502.SP (cpu s') = 0xFA /\
    CPU6502.P (cpu s') = 0x24 /\
    eval (cpu_read 0x01FB) s' = Ok 0x24.
Proof.
  pose proof (service_nmi_sequence (machine horizontal []) 0x00 0x80
                eq_refl ltac:(vm_compute; split; discriminate)
                eq_refl eq_refl) as H.
  eexists. split; [exact H|].
  repeat split; vm_compute; reflexivity.
Defined.

(** C5 fails as stated. Three [PHA] and an [RTI] leave [P = 0] (bit 5
    clear); the NMI then pushes [0x00] as status byte, where
    [P & ~0x10 | 0x20] is [0x20]. *)
Lemma nmi_status_counterexample :
  eval (step;; step;; step;; step;;
        p ← get_P;
        service_nmi;;
        pushed ← cpu_read 0x01FB;
        mret (p, pushed, Z.lor (Z.land p (Z.lnot 0x10)) 0x20))
       (machine horizontal [0x48; 0x48; 0x48; 0x40])
  = Ok (0x00, 0x00, 0x20).
Proof. vm_compute. reflexivity. Qed.

(** ** Instruction decoding *)






(** ** Rules for [keeps] *)

Section keeps_rules.
Context {I : NES -> Prop} {E : Prop}.

Lemma keeps_ret {A} (a : A) (Q : A -> Prop) : Q a -> keeps I E (mret a) Q.
Proof. intros Ha s Hs. unfold wp. cbn. auto. Qed.

Lemma keeps_bind {A B} (m : M A) (f : A -> M B) (Q : B -> Prop) :
  keeps I E m (fun _ => True) -> (forall a, keeps I E (f a) Q) ->
  keeps I E (m ≫= f) Q.
Proof.
  intros Hm Hf s Hs. specialize (Hm s Hs). unfold wp in *.
  unfold mbind, M_bind. destruct (m s) as [[a s']|e]; [|exact Hm].
  destruct Hm as [_ Hs']. exact (Hf a s' Hs').
Qed.

Lemma keeps_weaken {A} (m : M A) (Q Q' : A -> Prop) :
  keeps I E m Q -> (forall a, Q a -> Q' a) -> keeps I E m Q'.
Proof.
  intros Hm HQ s Hs. specialize (Hm s Hs). unfold wp in *.
  destruct (m s) as [[a s']|e]; [|exact Hm]. destruct Hm; auto.
Qed.

Lemma keeps_gets {A} (f : NES -> A) : keeps I E (gets f) (fun _ => True).
Proof. intros s Hs. unfold wp, gets. auto. Qed.

Lemma keeps_modify (f : NES -> NES) :
  (forall s, I s -> I (f s)) -> keeps I E (modify f) (fun _ => True).
Proof. intros Hf s Hs. unfold wp, modify. auto. Qed.

Lemma keeps_for_M (idxs : list Z) (body : Z -> M unit) :
  (forall i, i ∈ idxs -> keeps I E (body i) (fun _ => True)) ->
  keeps I E (for_M idxs body) (fun _ => True).
Proof.
  induction idxs as [|i rest IH]; intros Hbody; cbn [for_M].
  - by apply keeps_ret.
  - apply keeps_bind.
    + apply Hbody. by left.
    + intros _. apply IH. intros j Hj. apply Hbody. by right.
Qed.
End keeps_rules.

(** With [E := True] and no invariant, only the returned value matters. *)
Lemma keeps_any {A} (m : M A) : keeps (fun _ => True) True m (fun _ => True).
Proof. intros s _. unfold wp. destruct (m s) as [[a s']|e]; auto. Qed.

(** ** The bus keeps the machine well formed *)

Lemma wf_with_cpu (c : CPU6502.t) (s : NES) : wf s -> wf (with_cpu c s).
Proof. intros [? ? ? ? ? ?]. by split. Qed.

Lemma wf_with_nmi_pending (b : bool) (s : NES) : wf s -> wf (with_nmi_pending b s).
Proof. intros [? ? ? ? ? ?]. by split. Qed.

Lemma wf_with_controller_shift (l : list Z) (s : NES) :
  len l = 2 -> wf s -> wf (with_controller_shift l s).
Proof. intros ? [? ? ? ? ? ?]. by split. Qed.

Lemma wf_with_controller_strobe (v : Z) (s : NES) :
  wf s -> wf (with_controller_strobe v s).
Proof. intros [? ? ? ? ? ?]. by split. Qed.

Lemma wf_with_ram (l : list Z) (s : NES) :
  len l = 0x800 -> wf s -> wf (with_ram l s).
Proof. intros ? [? ? ? ? ? ?]. by split. Qed.

Lemma wf_with_sram (l : list Z) (s : NES) :
  len l = 0x2000 -> wf s -> wf (with_sram l s).
Proof. intros ? [? ? ? ? ? ?]. by split. Qed.

Lemma wf_with_oam (l : list Z) (s : NES) :
  len l = 256 -> wf s -> wf (with_ppu (PPU.with_oam l (ppu s)) s).
Proof. intros ? [? ? ? ? ? ?]. by split. Qed.

Lemma cpu_read_wf (addr : Z) : keeps wf False (cpu_read addr) (fun _ => True).
Proof.
  intros s Hs. unfold wp. rewrite cpu_read_masks.
  pose proof (land_0xFFFF_range addr) as Ha.
  generalize dependent (Z.land addr 0xFFFF). clear addr. intros addr Ha.
  pose proof Hs as [Hram Hsram Hoam Hst Hsh Hprg].
  unfold cpu_read. rewrite (land_0xFFFF_id addr) by done.
  repeat (case_test; try lia); run.
  - destruct (getitem_in_range (ram s) (Z.land addr 0x07FF)) as (v & -> & _).
    { pose proof (land_0x07FF_range addr). lia. }
    done.
  - done.
  - destruct (getitem_in_range (controller_shift s) 0) as (c & -> & _); [lia|].
    rewrite setitem_in_range by lia. split; [done|].
    apply wf_with_controller_shift; [by rewrite len_insert | done].
  - destruct (getitem_in_range (controller_shift s) 1) as (c & -> & _); [lia|].
    rewrite setitem_in_range by lia. split; [done|].
    apply wf_with_controller_shift; [by rewrite len_insert | done].
  - done.
  - destruct (getitem_in_range (sram s) (addr - 0x6000)) as (v & -> & _); [lia|].
    done.
  - unfold prg_fits in Hprg. destruct (prg_banks (rom s) =? 1).
    + destruct (getitem_in_range (prg s) ((addr - 0x8000) mod (16 * 1024)))
        as (v & -> & _); [|done].
      pose proof (Z.mod_pos_bound (addr - 0x8000) (16 * 1024) ltac:(lia)). lia.
    + destruct (getitem_in_range (prg s) (addr - 0x8000)) as (v & -> & _);
        [lia | done].
  - done.
Qed.

Lemma range_bounds (n i : Z) : i ∈ range n -> 0 <= i < n.
Proof. unfold range. rewrite elem_of_seqZ. lia. Qed.

Lemma dma_body_wf (base i : Z) :
  0 <= i < 256 ->
  keeps wf False
    (b ← cpu_read (base + i);
     ppu ← gets ppu;
     oam ← lift (setitem (PPU.oam ppu) i b);
     modify (with_ppu (PPU.with_oam oam ppu)))
    (fun _ => True).
Proof.
  intros Hi s Hs. pose proof (cpu_read_wf (base + i) s Hs) as Hr.
  unfold wp in *. unfold mbind at 1. unfold M_bind at 1.
  destruct (cpu_read (base + i) s) as [[b s1]|e]; [|done].
  destruct Hr as [_ Hs1]. run.
  rewrite setitem_in_range by (rewrite (wf_oam _ Hs1); lia).
  split; [done|]. apply wf_with_oam; [|done].
  rewrite len_insert. apply (wf_oam _ Hs1).
Qed.

Lemma cpu_write_wf (addr val : Z) :
  keeps wf False (cpu_write addr val) (fun _ => True).
Proof.
  intros s Hs. pose proof Hs as [Hram Hsram Hoam Hst Hsh Hprg].
  unfold cpu_write.
  pose proof (land_0xFFFF_range addr) as Ha.
  generalize dependent (Z.land addr 0xFFFF). intros a Ha.
  repeat (case_test; try lia).
  - (* work RAM *)
    unfold wp. run. rewrite setitem_in_range.
    2:{ pose proof (land_0x07FF_range a). lia. }
    split; [done|]. apply wf_with_ram; [|done]. by rewrite len_insert.
  - unfold wp. run. done.
  - (* OAM DMA *)
    apply keeps_for_M; [|done]. intros i Hi.
    apply dma_body_wf, range_bounds, Hi.
  - (* controller strobe *)
    clear Hs. destruct s as [? ? ? ? ? st sh ? ? ?].
    cbn [ram sram ppu controller_state controller_shift] in *.
    unfold len in Hst, Hsh.
    destruct st as [|b0 [|b1 [|]]]; try (simpl in Hst; lia).
    destruct sh as [|c0 [|c1 [|]]]; try (simpl in Hsh; lia).
    unfold wp. run. cbn [controller_strobe with_controller_strobe].
    destruct (truthy (Z.land (Z.land val 0xFF) 1)); cbn;
      (split; [done|]); by split.
  - unfold wp. run. done.
  - (* cartridge SRAM *)
    unfold wp. run. rewrite setitem_in_range by lia.
    split; [done|]. apply wf_with_sram; [|done]. by rewrite len_insert.
  - unfold wp. run. done.
  - unfold wp. run. done.
Qed.

(** ** The CPU keeps any invariant the bus keeps *)

Create HintDb keeps discriminated.

Ltac keeps_step :=
  lazymatch goal with
  | |- keeps _ _ (mret _) _ => apply keeps_ret; cbv beta; first [exact Logic.I | lia]
  | |- keeps _ _ (_ ≫= _) _ => apply keeps_bind; [ | intros ? ]
  | |- keeps _ _ (if ?b then _ else _) _ => destruct b
  | |- keeps _ _ (let '(_, _) := ?p in _) _ => destruct p
  | |- keeps _ _ (gets _) _ => apply keeps_gets
  | |- keeps _ _ _ _ => solve [auto with keeps]
  end.

Ltac keeps_go := cbv zeta; repeat keeps_step.

Section cpu_keeps.
Context {Inv : NES -> Prop} {E : Prop}.
Hypothesis Inv_read : forall addr, keeps Inv E (cpu_read addr) (fun _ => True).
Hypothesis Inv_write :
  forall addr val, keeps Inv E (cpu_write addr val) (fun _ => True).
Hypothesis Inv_cpu : forall c s, Inv s -> Inv (with_cpu c s).
Hypothesis Inv_nmi : forall b s, Inv s -> Inv (with_nmi_pending b s).

Local Abbreviation ok m := (keeps Inv E m (fun _ => True)).

Lemma keeps_set_cpu (f : CPU6502.t -> CPU6502.t) :
  ok (modify (fun s => with_cpu (f (cpu s)) s)).
Proof. apply keeps_modify. intros s Hs. by apply Inv_cpu. Qed.

Lemma keeps_get_A : ok get_A. Proof. apply keeps_gets. Qed.
Lemma keeps_get_X : ok get_X. Proof. apply keeps_gets. Qed.
Lemma keeps_get_Y : ok get_Y. Proof. apply keeps_gets. Qed.
Lemma keeps_get_PC : ok get_PC. Proof. apply keeps_gets. Qed.
Lemma keeps_get_SP : ok get_SP. Proof. apply keeps_gets. Qed.
Lemma keeps_get_P : ok get_P. Proof. apply keeps_gets. Qed.
Lemma keeps_get_cycles : ok get_cycles. Proof. apply keeps_gets. Qed.

Lemma keeps_set_A v : ok (set_A v). Proof. apply keeps_set_cpu. Qed.
Lemma keeps_set_X v : ok (set_X v). Proof. apply keeps_set_cpu. Qed.
Lemma keeps_set_Y v : ok (set_Y v). Proof. apply keeps_set_cpu. Qed.
Lemma keeps_set_PC v : ok (set_PC v). Proof. apply keeps_set_cpu. Qed.
Lemma keeps_set_SP v : ok (set_SP v). Proof. apply keeps_set_cpu. Qed.
Lemma keeps_set_P v : ok (set_P v). Proof. apply keeps_set_cpu. Qed.
Lemma keeps_set_cycles v : ok (set_cycles v). Proof. apply keeps_set_cpu. Qed.

#[local] Hint Resolve Inv_read Inv_write keeps_get_A keeps_get_X keeps_get_Y
  keeps_get_PC keeps_get_SP keeps_get_P keeps_get_cycles keeps_set_A
  keeps_set_X keeps_set_Y keeps_set_PC keeps_set_SP keeps_set_P
  keeps_set_cycles : keeps.

Lemma keeps_add_cycles n : ok (add_cycles n).
Proof. unfold add_cycles. keeps_go. Qed.

Lemma keeps_set_flag mask value : ok (set_flag mask value).
Proof. unfold set_flag. keeps_go. Qed.

Lemma keeps_get_flag mask : ok (get_flag mask).
Proof. unfold get_flag. keeps_go. Qed.

#[local] Hint Resolve keeps_add_cycles keeps_set_flag keeps_get_flag : keeps.

Lemma keeps_push val : ok (push val).
Proof. unfold push. keeps_go. Qed.

Lemma keeps_pop : ok pop.
Proof. unfold pop. keeps_go. Qed.

Lemma keeps_fetch_byte : ok fetch_byte.
Proof. unfold fetch_byte. keeps_go. Qed.

#[local] Hint Resolve keeps_push keeps_pop keeps_fetch_byte : keeps.

Lemma keeps_fetch_word : ok fetch_word.
Proof. unfold fetch_word. keeps_go. Qed.

Lemma keeps_update_zn val : ok (update_zn val).
Proof. unfold update_zn. keeps_go. Qed.

Lemma keeps_read_addr addr : ok (read_addr addr).
Proof. unfold read_addr. auto with keeps. Qed.

Lemma keeps_write_addr addr val : ok (write_addr addr val).
Proof. unfold write_addr. auto with keeps. Qed.

#[local] Hint Resolve keeps_fetch_word keeps_update_zn keeps_read_addr
  keeps_write_addr : keeps.

Lemma keeps_am_immediate : ok am_immediate.
Proof. unfold am_immediate. keeps_go. Qed.

Lemma keeps_am_zeropage : ok am_zeropage.
Proof. unfold am_zeropage. auto with keeps. Qed.

Lemma keeps_am_zeropage_x : ok am_zeropage_x.
Proof. unfold am_zeropage_x. keeps_go. Qed.

Lemma keeps_am_absolute : ok am_absolute.
Proof. unfold am_absolute. auto with keeps. Qed.

Lemma keeps_am_relative : ok am_relative.
Proof. unfold am_relative. keeps_go. Qed.

#[local] Hint Resolve keeps_am_immediate keeps_am_zeropage
  keeps_am_zeropage_x keeps_am_absolute keeps_am_relative : keeps.

(** Every branch of [step], the default fallback included, returns
    at least 2 cycles. *)
Lemma keeps_execute opcode : keeps Inv E (execute opcode) (fun c => 2 <= c).
Proof. unfold execute. keeps_go. Qed.

Lemma keeps_step_cycles : keeps Inv E step (fun c => 2 <= c).
Proof.
  unfold step. apply keeps_bind; [apply keeps_fetch_byte|].
  intros opcode. apply keeps_execute.
Qed.

Lemma keeps_service_nmi : ok service_nmi.
Proof.
  unfold service_nmi. apply keeps_bind.
  - apply keeps_modify. intros s Hs. by apply Inv_nmi.
  - intros _. keeps_go.
Qed.

Lemma keeps_loop_body : keeps Inv E loop_body (fun c => 2 <= c).
Proof.
  unfold loop_body. apply keeps_bind; [apply keeps_gets|]. intros pending.
  apply keeps_bind.
  - destruct pending; [apply keeps_service_nmi | by apply keeps_ret].
  - intros _. apply keeps_step_cycles.
Qed.
End cpu_keeps.

(** ** The CPU-stepping loop *)

Lemma loop_body_wf : keeps wf False loop_body (fun c => 2 <= c).
Proof.
  apply keeps_loop_body.
  - apply cpu_read_wf.
  - apply cpu_write_wf.
  - intros c s. apply wf_with_cpu.
  - intros b s. apply wf_with_nmi_pending.
Qed.

Lemma step_wf : keeps wf False step (fun c => 2 <= c).
Proof.
  apply keeps_step_cycles.
  - apply cpu_read_wf.
  - apply cpu_write_wf.
  - intros c s. apply wf_with_cpu.
Qed.

Lemma loop_body_cycles :
  keeps (fun _ => True) True loop_body (fun c => 2 <= c).
Proof. apply keeps_loop_body; intros; first [apply keeps_any | exact Logic.I]. Qed.

Lemma step_cycles : keeps (fun _ => True) True step (fun c => 2 <= c).
Proof. apply keeps_step_cycles; intros; first [apply keeps_any | exact Logic.I]. Qed.

(** Fuel covering the cycles still to run is enough: each iteration
    adds at least 2. *)
Lemma run_loop_terminates (fuel : nat) : forall (target cycles : Z) (s : NES),
  (Z.to_nat (target - cycles) <= fuel)%nat ->
  exists r,
    run_loop fuel target cycles s = Some r /\
    match r with
    | Ok (total, _) => target <= total
    | Raise _ => True
    end.
Proof.
  induction fuel as [|fuel IH]; intros target cycles s Hfuel; cbn [run_loop];
    destruct (Z.ltb_spec cycles target) as [Hlt|Hge];
    try (eexists; split; [reflexivity|]; cbv beta iota; lia).
  - lia.
  - pose proof (loop_body_cycles s Logic.I) as Hb. unfold wp in Hb.
    destruct (loop_body s) as [[c s']|e].
    + destruct Hb as [Hc _]. apply IH. lia.
    + eexists. split; [reflexivity | exact Logic.I].
Qed.

Lemma run_loop_completes (fuel : nat) : forall (target cycles : Z) (s : NES),
  wf s -> (Z.to_nat (target - cycles) <= fuel)%nat ->
  exists total s',
    run_loop fuel target cycles s = Some (Ok (total, s')) /\
    target <= total /\ wf s'.
Proof.
  induction fuel as [|fuel IH]; intros target cycles s Hwf Hfuel;
    cbn [run_loop]; destruct (Z.ltb_spec cycles target) as [Hlt|Hge];
    try (exists cycles, s; split; [reflexivity|]; split; [lia | exact Hwf]).
  - lia.
  - pose proof (loop_body_wf s Hwf) as Hb. unfold wp in Hb.
    destruct (loop_body s) as [[c s']|e]; [|destruct Hb].
    destruct Hb as [Hc Hwf']. apply IH; [exact Hwf' | lia].
Qed.

(** ** Background rendering *)

(** C4, at a concrete input. With subpalette 1 selected for the
    top-left tile, its index-0 pixels are drawn with the colour of
    [$3F04] ([$20], light grey), not with the universal background
    colour of [$3F00] ([$0F], black); a tile under subpalette 0 shows
    the colour of [$3F00]. *)
Theorem background_index0_uses_subpalette :
  (p ← ppu_subpalette1;
   surf ← render_frame p;
   universal ← PPU.read p 0x3F00;
   universal_rgb ← getitem NES_PALETTE (universal mod len NES_PALETTE);
   mret (Surface.get_at 0 0 surf, Surface.get_at 7 7 surf,
         Surface.get_at 16 0 surf, universal_rgb))
  = Ok ((236, 238, 236), (236, 238, 236), (0, 0, 0), (0, 0, 0)).
Proof. vm_compute. reflexivity. Qed.

(** * Further properties of the bus *)

Lemma land_0x07FF_mod (a : Z) : Z.land a 0x07FF = a mod 0x800.
Proof. change 0x07FF with (Z.ones 11). by rewrite Z.land_ones. Qed.

(** A write anywhere in [$0000-$1FFF] stores the byte at the address
    taken modulo [$800]. *)
Lemma cpu_write_ram_mirror (s : NES) (a v : Z) :
  0 <= a <= 0x1FFF -> len (ram s) = 0x800 ->
  cpu_write a v s
  = Ok (tt, with_ram (<[Z.to_nat (a mod 0x800) := Z.land v 0xFF]> (ram s)) s).
Proof.
  intros Ha Hlen. unfold cpu_write.
  rewrite (land_0xFFFF_id a) by lia. rewrite land_0x07FF_mod.
  repeat (case_test; try lia). run.
  rewrite setitem_in_range; [reflexivity|].
  pose proof (Z.mod_pos_bound a 0x800 ltac:(lia)). lia.
Qed.

Lemma cpu_read_ram (s : NES) (a : Z) :
  0 <= a <= 0x1FFF ->
  cpu_read a s = (v ← getitem (ram s) (a mod 0x800); mret (v, s)).
Proof.
  intros Ha. unfold cpu_read.
  rewrite (land_0xFFFF_id a) by lia. rewrite land_0x07FF_mod.
  repeat (case_test; try lia). run.
  by destruct (getitem (ram s) (a mod 0x800)).
Qed.

(** X1. Work RAM is mirrored through [$1FFF]: a byte written at any
    address below [$2000] is read back at every address congruent to it
    modulo [$800], and the bytes at all other addresses below [$2000]
    read as before. *)
Theorem ram_write_read_mirrors (s : NES) (a b v : Z) :
  len (ram s) = 0x800 -> 0 <= a <= 0x1FFF -> 0 <= b <= 0x1FFF ->
  exists s',
    cpu_write a v s = Ok (tt, s') /\
    (a mod 0x800 = b mod 0x800 -> cpu_read b s' = Ok (Z.land v 0xFF, s')) /\
    (a mod 0x800 <> b mod 0x800 ->
     eval (cpu_read b) s' = eval (cpu_read b) s).
Proof.
  intros Hlen Ha Hb.
  pose proof (Z.mod_pos_bound a 0x800 ltac:(lia)) as Hma.
  pose proof (Z.mod_pos_bound b 0x800 ltac:(lia)) as Hmb.
  eexists. split; [by apply cpu_write_ram_mirror|]. split.
  - intros Hab. rewrite cpu_read_ram by done. cbn [ram with_ram].
    rewrite <- Hab, getitem_insert_eq by lia. reflexivity.
  - intros Hab. unfold eval. rewrite !cpu_read_ram by done.
    cbn [ram with_ram]. rewrite getitem_insert_ne by lia.
    by destruct (getitem (ram s) (b mod 0x800)).
Qed.

Lemma ram_write_read_mirrors_witness :
  exists s',
    cpu_write 0x0042 0x1AB (machine horizontal []) = Ok (tt, s') /\
    cpu_read 0x1842 s' = Ok (0xAB, s').
Proof.
  destruct (ram_write_read_mirrors (machine horizontal []) 0x0042 0x1842 0x1AB
              eq_refl ltac:(lia) ltac:(lia)) as (s' & Hw & Hr & _).
  exists s'. split; [exact Hw | exact (Hr eq_refl)].
Defined.

Lemma cpu_read_sram (s : NES) (a : Z) :
  0x6000 <= a <= 0x7FFF ->
  cpu_read a s = (v ← getitem (sram s) (a - 0x6000); mret (v, s)).
Proof.
  intros Ha. unfold cpu_read. rewrite (land_0xFFFF_id a) by lia.
  repeat (case_test; try lia). run.
  by destruct (getitem (sram s) (a - 0x6000)).
Qed.

(** X2. Cartridge SRAM at [$6000-$7FFF] is plain memory: a written
    byte is read back at the same address, masked to 8 bits, and every
    other SRAM address reads as before. *)
Theorem sram_write_read (s : NES) (a b v : Z) :
  len (sram s) = 0x2000 -> 0x6000 <= a <= 0x7FFF -> 0x6000 <= b <= 0x7FFF ->
  exists s',
    cpu_write a v s = Ok (tt, s') /\
    (a = b -> cpu_read b s' = Ok (Z.land v 0xFF, s')) /\
    (a <> b -> eval (cpu_read b) s' = eval (cpu_read b) s).
Proof.
  intros Hlen Ha Hb.
  exists (with_sram (<[Z.to_nat (a - 0x6000) := Z.land v 0xFF]> (sram s)) s).
  split; [|split].
  - unfold cpu_write. rewrite (land_0xFFFF_id a) by lia.
    repeat (case_test; try lia). run.
    rewrite setitem_in_range by lia. reflexivity.
  - intros <-. rewrite cpu_read_sram by done. cbn [sram with_sram].
    rewrite getitem_insert_eq by lia. reflexivity.
  - intros Hab. unfold eval. rewrite !cpu_read_sram by done.
    cbn [sram with_sram]. rewrite getitem_insert_ne by lia.
    by destruct (getitem (sram s) (b - 0x6000)).
Qed.

Lemma sram_write_read_witness :
  exists s',
    cpu_write 0x6010 0x7E (machine horizontal []) = Ok (tt, s') /\
    cpu_read 0x6010 s' = Ok (0x7E, s').
Proof.
  destruct (sram_write_read (machine horizontal []) 0x6010 0x6010 0x7E
              eq_refl ltac:(lia) ltac:(lia)) as (s' & Hw & Hr & _).
  exists s'. split; [exact Hw | exact (Hr eq_refl)].
Defined.

(** X3. Writes are discarded, with no change of state and no
    exception, in the PPU register window [$2000-$3FFF], in the I/O page
    [$4000-$401F] except [$4014] and [$4016], in the unmapped region
    [$4020-$5FFF] and over the whole PRG window [$8000-$FFFF]. *)
Theorem cpu_write_discarded (s : NES) (a v : Z) :
  0x2000 <= a <= 0x3FFF \/
  (0x4000 <= a <= 0x401F /\ a <> 0x4014 /\ a <> 0x4016) \/
  0x4020 <= a <= 0x5FFF \/
  0x8000 <= a <= 0xFFFF ->
  cpu_write a v s = Ok (tt, s).
Proof.
  intros Ha. unfold cpu_write. rewrite (land_0xFFFF_id a) by lia.
  repeat (case_test; try lia); reflexivity.
Qed.

Lemma cpu_write_discarded_witness :
  cpu_write 0x3F00 0x0F (machine horizontal []) = Ok (tt, machine horizontal [])
  /\ cpu_write 0xFFFC 0x12 (machine horizontal [])
     = Ok (tt, machine horizontal []).
Proof.
  split; apply cpu_write_discarded; lia.
Defined.

(** ** What running the CPU cannot change *)

Lemma for_each_ext {S} (idxs : list Z) (body body' : Z -> S -> result S) (s : S) :
  (forall i s, body i s = body' i s) ->
  for_each idxs body s = for_each idxs body' s.
Proof.
  intros Hext. revert s. induction idxs as [|i rest IH]; intros s; [done|].
  cbn [for_each]. rewrite Hext. destruct (body' i s); [apply IH | done].
Qed.

Lemma PPU_read_ext (p p' : PPU.t) (a : Z) :
  PPU.chr p' = PPU.chr p -> PPU.vram p' = PPU.vram p ->
  PPU.palette p' = PPU.palette p -> PPU.read p' a = PPU.read p a.
Proof. intros Hc Hv Hp. unfold PPU.read. by rewrite Hc, Hv, Hp. Qed.

(** Splits on the outcome the first bind of the goal waits for. *)
Ltac case_bind :=
  match goal with
  | |- context [@mbind result _ _ _ _ ?r] =>
      destruct r; cbn [mbind result_bind]; [|done]
  end.

Lemma render_background_ext (p p' : PPU.t) (tiles : list (list (list Z)))
    (surf : Surface.t) :
  (forall a, PPU.read p' a = PPU.read p a) ->
  render_background p' tiles surf = render_background p tiles surf.
Proof.
  intros Hread. unfold render_background.
  apply for_each_ext. intros row s1. apply for_each_ext. intros col s2.
  unfold draw_bg_tile. rewrite !Hread. do 3 case_bind.
  apply for_each_ext. intros ty s3. apply for_each_ext. intros tx s4.
  unfold draw_bg_pixel. do 2 case_bind. by rewrite Hread.
Qed.

Lemma picture_fixed_refl (s : NES) : picture_fixed s s.
Proof. by repeat split. Qed.

(** Splits on the outcome of the first indexing of the goal. *)
Ltac case_item :=
  match goal with
  | |- context [getitem ?l ?i] => destruct (getitem l i); cbn
  | |- context [setitem ?l ?i ?v] => destruct (setitem l i v); cbn
  end.

Lemma cpu_read_picture (s0 : NES) (addr : Z) :
  keeps (picture_fixed s0) True (cpu_read addr) (fun _ => True).
Proof.
  intros s Hs. unfold wp, cpu_read.
  repeat (case_test; try lia); run; try done.
  all: try destruct (prg_banks (rom s) =? 1).
  all: repeat case_item; done.
Qed.

Lemma cpu_write_picture (s0 : NES) (addr val : Z) :
  keeps (picture_fixed s0) True (cpu_write addr val) (fun _ => True).
Proof.
  unfold cpu_write.
  repeat (case_test; try lia);
    try (intros s Hs; unfold wp; run; done).
  - intros s Hs. unfold wp. run. repeat case_item; done.
  - apply keeps_for_M. intros i _.
    apply keeps_bind; [apply cpu_read_picture|]. intros b.
    intros s Hs. unfold wp. run. repeat case_item; done.
  - intros s Hs. unfold wp. run.
    cbn [controller_strobe with_controller_strobe].
    destruct (truthy _); [|done]. cbn. repeat case_item; done.
  - intros s Hs. unfold wp. run. repeat case_item; done.
Qed.

Lemma loop_body_picture (s0 : NES) :
  keeps (picture_fixed s0) True loop_body (fun c => 2 <= c).
Proof.
  apply keeps_loop_body.
  - apply cpu_read_picture.
  - apply cpu_write_picture.
  - by intros c s.
  - by intros b s.
Qed.

Lemma run_loop_picture (fuel : nat) :
  forall (target cycles total : Z) (s0 s s' : NES),
    picture_fixed s0 s ->
    run_loop fuel target cycles s = Some (Ok (total, s')) ->
    picture_fixed s0 s'.
Proof.
  induction fuel as [|fuel IH]; intros target cycles total s0 s s' Hs;
    cbn [run_loop]; destruct (cycles <? target); try discriminate;
    try (by intros [= _ <-]).
  pose proof (loop_body_picture s0 s Hs) as Hb. unfold wp in Hb.
  destruct (loop_body s) as [[c s1]|e]; [|discriminate].
  destruct Hb as [_ Hs1]. by apply IH.
Qed.

(** X4. Running the CPU, for any number of cycles and whatever the
    program does, changes neither the cartridge (header fields, PRG) nor
    the PPU's pattern, nametable and palette memory: no bus write
    reaches them. The background pass of a frame rendered afterwards is
    therefore the one that would have been rendered before. *)
Theorem cpu_cannot_change_picture (fuel : nat) (target total : Z) (s s' : NES) :
  run_cpu_cycles fuel target s = Some (Ok (total, s')) ->
  rom s' = rom s /\ prg s' = prg s /\
  PPU.chr (ppu s') = PPU.chr (ppu s) /\
  PPU.vram (ppu s') = PPU.vram (ppu s) /\
  PPU.palette (ppu s') = PPU.palette (ppu s) /\
  forall tiles surf,
    render_background (ppu s') tiles surf = render_background (ppu s) tiles surf.
Proof.
  intros Hrun.
  pose proof (run_loop_picture fuel target 0 total s s s'
                (picture_fixed_refl s) Hrun) as (Hrom & Hprg & Hc & Hv & Hp).
  repeat (split; [assumption|]).
  intros tiles surf. apply render_background_ext.
  intros a. by apply PPU_read_ext.
Qed.

Lemma cpu_cannot_change_picture_witness :
  exists fuel total s',
    run_cpu_cycles fuel 100 (machine horizontal [0xA9; 0x3F; 0x8D; 0x00; 0x3F])
    = Some (Ok (total, s')) /\
    PPU.palette (ppu s') = bytearray 32.
Proof.
  destruct (run_loop_completes (Z.to_nat 100) 100 0
              (machine horizontal [0xA9; 0x3F; 0x8D; 0x00; 0x3F]))
    as (total & s' & Hrun & _ & _).
  { split; try reflexivity. unfold prg_fits. vm_compute. discriminate. }
  { lia. }
  exists (Z.to_nat 100), total, s'. split; [exact Hrun|].
  destruct (cpu_cannot_change_picture (Z.to_nat 100) 100 total _ s' Hrun)
    as (_ & _ & _ & _ & Hp & _).
  exact Hp.
Defined.

(** ** Loops over a range, with an invariant indexed by the counter *)

Lemma for_M_seqZ_inv (P : Z -> NES -> Prop) (body : Z -> M unit) (k : nat) :
  forall (m : Z) (s : NES),
    (forall i s, m <= i < m + Z.of_nat k -> P i s ->
                 exists s', body i s = Ok (tt, s') /\ P (i + 1) s') ->
    P m s ->
    exists s', for_M (seqZ m (Z.of_nat k)) body s = Ok (tt, s') /\
               P (m + Z.of_nat k) s'.
Proof.
  induction k as [|k IH]; intros m s Hbody Hs.
  - exists s. split; [reflexivity|]. by replace (m + Z.of_nat 0) with m by lia.
  - rewrite seqZ_cons by lia.
    replace (Z.pred (Z.of_nat (S k))) with (Z.of_nat k) by lia.
    destruct (Hbody m s ltac:(lia) Hs) as (s1 & Hb & Hs1).
    destruct (IH (Z.succ m) s1) as (s' & Hf & Hs').
    + intros i s2 Hi. apply Hbody. lia.
    + by replace (Z.succ m) with (m + 1) by lia.
    + exists s'. split.
      * cbn [for_M]. unfold mbind, M_bind. rewrite Hb. exact Hf.
      * by replace (m + Z.of_nat (S k)) with (Z.succ m + Z.of_nat k) by lia.
Qed.

Lemma for_M_range_inv (P : Z -> NES -> Prop) (body : Z -> M unit) (n : Z) (s : NES) :
  0 <= n ->
  (forall i s, 0 <= i < n -> P i s ->
               exists s', body i s = Ok (tt, s') /\ P (i + 1) s') ->
  P 0 s ->
  exists s', for_M (range n) body s = Ok (tt, s') /\ P n s'.
Proof.
  intros Hn Hbody Hs. unfold range.
  destruct (for_M_seqZ_inv P body (Z.to_nat n) 0 s) as (s' & Hf & Hs').
  - intros i s0 Hi. apply Hbody. lia.
  - exact Hs.
  - rewrite Z2Nat.id in Hf, Hs' by lia. exists s'. split; [exact Hf|].
    by replace n with (0 + n) by lia.
Qed.

(** ** OAM DMA *)

(** X5. A write of a page number [v] of work RAM (or of one of its
    mirrors, [v <= $1F]) to [$4014] leaves OAM equal to the 256 bytes of
    that RAM page and changes nothing else. *)
Theorem oam_dma_copies_ram_page (s : NES) (v : Z) :
  len (ram s) = 0x800 -> len (PPU.oam (ppu s)) = 256 -> 0 <= v <= 0x1F ->
  let base := (v * 0x100) mod 0x800 in
  cpu_write 0x4014 v s
  = Ok (tt, with_ppu (PPU.with_oam (slice (ram s) base (base + 256)) (ppu s)) s).
Proof.
  intros Hram Hoam Hv base.
  assert (0 <= base /\ base + 256 <= 0x800) as Hbase.
  { unfold base. Z.to_euclidean_division_equations. lia. }
  set (target := slice (ram s) base (base + 256)).
  assert (length target = 256%nat) as Htarget.
  { unfold target, slice. rewrite length_take, length_drop.
    unfold len in Hram. lia. }
  assert (forall j : nat, (j < 256)%nat ->
            target !! j = ram s !! Z.to_nat (base + Z.of_nat j)) as Htj.
  { intros j Hj. unfold target, slice.
    rewrite lookup_take_lt by lia. rewrite lookup_drop. f_equal. lia. }
  unfold cpu_write. zsimp. rewrite land_0xFF_byte by lia.
  set (body := fun i : Z => _).
  pose (P := fun (k : Z) (s' : NES) =>
    exists oam, s' = with_ppu (PPU.with_oam oam (ppu s)) s /\
                length oam = 256%nat /\
                forall j : nat, Z.of_nat j < k -> oam !! j = target !! j).
  destruct (for_M_range_inv P body 256 s ltac:(lia)) as (s' & Hf & Hs').
  - intros i s1 Hi (oam & -> & Hlen & Hpre). unfold body.
    destruct (getitem_in_range (ram s) (base + i)) as (b & Hg & Hb); [lia|].
    rewrite (bind_ok _ _ _ (with_ppu (PPU.with_oam oam (ppu s)) s) b).
    2:{ rewrite cpu_read_ram by lia. cbn [ram with_ppu].
        replace ((v * 256 + i) mod 2048) with (base + i)
          by (unfold base; Z.to_euclidean_division_equations; lia).
        rewrite Hg. reflexivity. }
    run. cbn [ppu with_ppu PPU.oam PPU.with_oam].
    rewrite setitem_in_range by (unfold len; lia).
    eexists. split; [reflexivity|].
    exists (<[Z.to_nat i := b]> oam). split; [|split].
    + destruct s as [? ? ? ? p ? ? ? ? ?]; destruct p. reflexivity.
    + by rewrite length_insert.
    + intros j Hj. destruct (decide (j = Z.to_nat i)) as [->|Hne].
      * rewrite list_lookup_insert_eq by lia. rewrite Htj by lia.
        rewrite Z2Nat.id by lia. by rewrite Hb.
      * rewrite list_lookup_insert_ne by done. apply Hpre. lia.
  - exists (PPU.oam (ppu s)). split; [|split].
    + destruct s as [? ? ? ? p ? ? ? ? ?]; destruct p. reflexivity.
    + unfold len in Hoam. lia.
    + intros j Hj. lia.
  - rewrite Hf. destruct Hs' as (oam & -> & Hlen & Hall).
    do 3 f_equal. f_equal. apply list_eq. intros j.
    destruct (decide (j < 256)%nat) as [Hj|Hj].
    + apply Hall. lia.
    + rewrite !lookup_ge_None_2 by lia. reflexivity.
Qed.

Lemma oam_dma_copies_ram_page_witness :
  exists s',
    cpu_write 0x4014 0x02 (machine horizontal []) = Ok (tt, s') /\
    len (PPU.oam (ppu s')) = 256.
Proof.
  pose proof (oam_dma_copies_ram_page (machine horizontal []) 0x02
                eq_refl eq_refl ltac:(lia)) as H.
  eexists. split; [exact H|]. reflexivity.
Defined.

(** ** The stack *)

Lemma stack_pointer_back (sp : Z) :
  0 <= sp <= 255 -> Z.land (Z.land (sp - 1) 0xFF + 1) 0xFF = sp.
Proof.
  intros H. change 0xFF with (Z.ones 8). rewrite !Z.land_ones by lia.
  change (2 ^ 8) with 256. Z.to_euclidean_division_equations. lia.
Qed.

(** [pop] increments [SP] modulo 256 and reads [$0100 + SP]. *)
Lemma pop_spec (s : NES) :
  pop s
  = (let sp := Z.land (CPU6502.SP (cpu s) + 1) 0xFF in
     v ← getitem (ram s) (0x100 + sp);
     mret (v, with_cpu (CPU6502.with_SP sp (cpu s)) s)).
Proof.
  unfold pop, get_SP, set_SP. cbv zeta.
  erewrite bind_ok by reflexivity. erewrite bind_ok by reflexivity.
  erewrite bind_ok by reflexivity.
  cbn [cpu with_cpu CPU6502.SP CPU6502.with_SP].
  pose proof (land_0xFF_range (CPU6502.SP (cpu s) + 1)) as Hr.
  rewrite cpu_read_ram by lia. cbn [ram with_cpu].
  rewrite Z.mod_small by lia. reflexivity.
Qed.

(** X6. [push] followed by [pop] returns the pushed value masked to 8
    bits and restores every CPU register, the stack pointer included;
    the only trace is the byte left in the stack slot [$0100 + SP]. *)
Theorem push_pop_round_trip (s : NES) (v : Z) :
  len (ram s) = 0x800 -> 0 <= CPU6502.SP (cpu s) <= 255 ->
  (push v;; pop) s
  = Ok (Z.land v 0xFF,
        with_ram (<[Z.to_nat (0x100 + CPU6502.SP (cpu s)) := Z.land v 0xFF]>
                    (ram s)) s).
Proof.
  intros Hlen Hsp.
  erewrite bind_ok by (by apply push_spec).
  rewrite pop_spec. cbv zeta.
  cbn [cpu with_cpu ram with_ram CPU6502.SP CPU6502.with_SP].
  rewrite stack_pointer_back by done.
  rewrite getitem_insert_eq by lia. cbn [mbind result_bind mret result_ret].
  destruct s as [? ? ? ? ? ? ? ? c ?]; destruct c.
  reflexivity.
Qed.

Lemma push_pop_round_trip_witness :
  exists s',
    (push 0x1C3;; pop) (machine horizontal []) = Ok (0xC3, s') /\
    cpu s' = cpu (machine horizontal []).
Proof.
  pose proof (push_pop_round_trip (machine horizontal []) 0x1C3 eq_refl
                ltac:(vm_compute; split; discriminate)) as H.
  eexists. split; [exact H|]. reflexivity.
Defined.

(** ** Subroutine call and return *)

Lemma forallb_range (P : Z -> bool) (n r : Z) :
  forallb P (seqZ 0 n) = true -> 0 <= r < n -> P r = true.
Proof.
  intros H Hr. rewrite forallb_forall in H. apply H.
  apply list_elem_of_In, elem_of_seqZ. lia.
Qed.

(** A 16-bit word is its high byte shifted left by 8, or-ed with its
    low byte. *)
Lemma word_of_bytes (r : Z) :
  0 <= r <= 0xFFFF ->
  Z.lor (Z.shiftl (Z.land (Z.shiftr r 8) 0xFF) 8) (Z.land r 0xFF) = r.
Proof.
  intros Hr. apply Z.bits_inj'. intros n Hn.
  rewrite Z.lor_spec, Z.shiftl_spec by lia.
  change 0xFF with (Z.ones 8).
  destruct (Z.ltb_spec n 8) as [Hlt|Hge].
  - rewrite (Z.testbit_neg_r _ (n - 8)) by lia.
    rewrite Z.land_spec, Z.ones_spec_low by lia. by rewrite andb_true_r.
  - rewrite !Z.land_spec, Z.shiftr_spec by lia.
    rewrite (Z.ones_spec_high 8 n) by lia. rewrite andb_false_r, orb_false_r.
    replace (n - 8 + 8) with n by lia.
    destruct (Z.ltb_spec n 16) as [Hlt|Hge'].
    + rewrite Z.ones_spec_low by lia. by rewrite andb_true_r.
    + rewrite Z.ones_spec_high by lia. rewrite andb_false_r.
      destruct (Z.eq_dec r 0) as [->|Hr0]; [by rewrite Z.bits_0|].
      symmetry. apply Z.bits_above_log2; [lia|].
      assert (Z.log2 r < 16); [|lia].
      apply Z.log2_lt_pow2; [lia|]. change (2 ^ 16) with 65536. lia.
Qed.

Lemma fetch_byte_spec (s : NES) (b : Z) :
  cpu_read (CPU6502.PC (cpu s)) s = Ok (b, s) ->
  fetch_byte s
  = Ok (b, with_cpu (CPU6502.with_PC (Z.land (CPU6502.PC (cpu s) + 1) 0xFFFF)
                       (cpu s)) s).
Proof.
  intros H. unfold fetch_byte, get_PC, set_PC.
  erewrite bind_ok by reflexivity. erewrite bind_ok by exact H.
  reflexivity.
Qed.

Lemma step_fetch (s : NES) (opcode : Z) :
  cpu_read (CPU6502.PC (cpu s)) s = Ok (opcode, s) ->
  step s
  = execute opcode
      (with_cpu (CPU6502.with_PC (Z.land (CPU6502.PC (cpu s) + 1) 0xFFFF)
                   (cpu s)) s).
Proof.
  intros H. unfold step. erewrite bind_ok by (by apply fetch_byte_spec).
  reflexivity.
Qed.

Lemma execute_JSR :
  execute 0x20
  = (addr ← fetch_word;
     pc ← get_PC;
     let ret := Z.land (pc - 1) 0xFFFF in
     push (Z.land (Z.shiftr ret 8) 0xFF);; push (Z.land ret 0xFF);;
     set_PC addr;; add_cycles 6;; mret 6).
Proof. reflexivity. Qed.

Lemma execute_RTS :
  execute 0x60
  = (lo ← pop; hi ← pop;
     set_PC (Z.lor (Z.shiftl hi 8) lo + 1);;
     add_cycles 6;; mret 6).
Proof. reflexivity. Qed.

Lemma land_0xFF_pred_ne (sp : Z) : 0 <= sp <= 255 -> Z.land (sp - 1) 0xFF <> sp.
Proof.
  intros H. change 0xFF with (Z.ones 8). rewrite Z.land_ones by lia.
  change (2 ^ 8) with 256. Z.to_euclidean_division_equations. lia.
Qed.

Lemma pop_ok (s : NES) (v : Z) :
  getitem (ram s) (0x100 + Z.land (CPU6502.SP (cpu s) + 1) 0xFF) = Ok v ->
  pop s
  = Ok (v, with_cpu (CPU6502.with_SP (Z.land (CPU6502.SP (cpu s) + 1) 0xFF)
                       (cpu s)) s).
Proof. intros H. rewrite pop_spec. cbv zeta. rewrite H. reflexivity. Qed.

Ltac regs :=
  cbn [cpu with_cpu ram with_ram rom prg CPU6502.A CPU6502.X CPU6502.Y
       CPU6502.PC CPU6502.SP CPU6502.P CPU6502.cycles CPU6502.with_A
       CPU6502.with_X CPU6502.with_Y CPU6502.with_PC CPU6502.with_SP
       CPU6502.with_P CPU6502.with_cycles].

(** [JSR] pushes the address of its last operand byte, high byte first,
    and jumps. *)
Lemma step_JSR (s : NES) (lo hi : Z) :
  let pc := CPU6502.PC (cpu s) in
  let sp := CPU6502.SP (cpu s) in
  len (ram s) = 0x800 -> 0 <= sp <= 255 ->
  0x8000 <= pc -> pc + 3 <= 0xFFFF ->
  cpu_read pc s = Ok (0x20, s) ->
  cpu_read (pc + 1) s = Ok (lo, s) ->
  cpu_read (pc + 2) s = Ok (hi, s) ->
  step s
  = Ok (6,
        with_cpu
          (CPU6502.with_cycles (CPU6502.cycles (cpu s) + 6)
             (CPU6502.with_PC (Z.lor lo (Z.shiftl hi 8))
                (CPU6502.with_SP (Z.land (Z.land (sp - 1) 0xFF - 1) 0xFF)
                   (cpu s))))
          (with_ram
             (<[Z.to_nat (0x100 + Z.land (sp - 1) 0xFF)
                := Z.land (pc + 2) 0xFF]>
                (<[Z.to_nat (0x100 + sp) := Z.land (Z.shiftr (pc + 2) 8) 0xFF]>
                   (ram s)))
             s)).
Proof.
  intros pc sp Hlen Hsp Hpc Hpc3 Hop Hlo Hhi.
  pose proof (land_0xFF_range (sp - 1)) as Hsp1.
  rewrite (step_fetch s 0x20) by exact Hop. rewrite execute_JSR.
  unfold fetch_word, get_PC, set_PC, add_cycles, get_cycles, set_cycles.
  fold pc. rewrite (land_0xFFFF_id (pc + 1)) by lia.
  erewrite bind_ok.
  2:{ erewrite bind_ok.
      2:{ apply fetch_byte_spec. regs.
          eapply cpu_read_prg_frame; [lia | | | exact Hlo]; reflexivity. }
      erewrite bind_ok.
      2:{ apply fetch_byte_spec. regs.
          rewrite (land_0xFFFF_id (pc + 1 + 1)) by lia.
          replace (pc + 1 + 1) with (pc + 2) by lia.
          eapply cpu_read_prg_frame; [lia | | | exact Hhi]; reflexivity. }
      reflexivity. }
  regs.
  rewrite (land_0xFFFF_id (pc + 1 + 1)), (land_0xFFFF_id (pc + 1 + 1 + 1)) by lia.
  erewrite bind_ok by reflexivity. cbv zeta. regs.
  replace (pc + 1 + 1 + 1 - 1) with (pc + 2) by lia.
  rewrite (land_0xFFFF_id (pc + 2)) by lia.
  erewrite bind_ok by (apply push_spec; [exact Hsp | exact Hlen]).
  erewrite bind_ok.
  2:{ apply push_spec; regs; [exact Hsp1 | rewrite len_insert; exact Hlen]. }
  regs. rewrite !land_0xFF_idemp.
  subst pc sp. destruct s as [? ? ? ? ? ? ? ? c ?]; destruct c.
  reflexivity.
Qed.

(** [RTS] pops the low byte, then the high byte, and resumes one past
    the popped address; the new [PC] is not masked. *)
Lemma step_RTS (s : NES) (lo hi : Z) :
  let sp1 := Z.land (CPU6502.SP (cpu s) + 1) 0xFF in
  let sp2 := Z.land (sp1 + 1) 0xFF in
  cpu_read (CPU6502.PC (cpu s)) s = Ok (0x60, s) ->
  getitem (ram s) (0x100 + sp1) = Ok lo ->
  getitem (ram s) (0x100 + sp2) = Ok hi ->
  step s
  = Ok (6,
        with_cpu
          (CPU6502.with_cycles (CPU6502.cycles (cpu s) + 6)
             (CPU6502.with_PC (Z.lor (Z.shiftl hi 8) lo + 1)
                (CPU6502.with_SP sp2 (cpu s))))
          s).
Proof.
  intros sp1 sp2 Hop Hlo Hhi.
  rewrite (step_fetch s 0x60) by exact Hop. rewrite execute_RTS.
  erewrite bind_ok by (apply pop_ok; regs; exact Hlo).
  erewrite bind_ok by (apply pop_ok; regs; exact Hhi).
  unfold set_PC, add_cycles, get_cycles, set_cycles.
  erewrite bind_ok by reflexivity.
  erewrite bind_ok by reflexivity.
  subst sp1 sp2. destruct s as [? ? ? ? ? ? ? ? c ?]; destruct c.
  reflexivity.
Qed.

(** X7. With 2 KiB of work RAM and [SP] a byte: a [JSR] whose three
    bytes lie in the cartridge window ([$8000 <= PC], [PC + 3 <= $FFFF])
    and whose target also lies in the cartridge window [$8000-$FFFF]
    and holds an [RTS], followed by that [RTS], resumes at the
    instruction after the [JSR] ([PC + 3], the byte after the high byte
    of its operand), with the stack pointer and all other registers as
    before the call, in 6 + 6 cycles. Caller and callee are required in
    the cartridge window, where the two pushes cannot overwrite them. *)
Theorem jsr_rts_returns (s : NES) (lo hi : Z) :
  let pc := CPU6502.PC (cpu s) in
  let addr := Z.lor lo (Z.shiftl hi 8) in
  len (ram s) = 0x800 -> 0 <= CPU6502.SP (cpu s) <= 255 ->
  0x8000 <= pc -> pc + 3 <= 0xFFFF -> 0x8000 <= addr <= 0xFFFF ->
  cpu_read pc s = Ok (0x20, s) ->
  cpu_read (pc + 1) s = Ok (lo, s) ->
  cpu_read (pc + 2) s = Ok (hi, s) ->
  cpu_read addr s = Ok (0x60, s) ->
  exists s',
    (c1 ← step; c2 ← step; mret (c1 + c2)) s = Ok (12, s') /\
    cpu s' = CPU6502.with_cycles (CPU6502.cycles (cpu s) + 12)
               (CPU6502.with_PC (pc + 3) (cpu s)).
Proof.
  intros pc addr Hlen Hsp Hpc Hpc3 Haddr Hop Hlo Hhi Hrts.
  pose proof (land_0xFF_range (CPU6502.SP (cpu s) - 1)) as Hsp1.
  pose proof (land_0xFF_pred_ne _ Hsp) as Hne.
  erewrite bind_ok by (by apply step_JSR).
  erewrite bind_ok.
  2:{ apply (step_RTS _ (Z.land (pc + 2) 0xFF) (Z.land (Z.shiftr (pc + 2) 8) 0xFF));
        regs.
      - eapply cpu_read_prg_frame; [exact Haddr | | | exact Hrts]; reflexivity.
      - rewrite stack_pointer_back by exact Hsp1.
        apply getitem_insert_eq. rewrite len_insert. lia.
      - rewrite !stack_pointer_back by first [exact Hsp1 | exact Hsp].
        rewrite getitem_insert_ne by lia.
        apply getitem_insert_eq. lia. }
  eexists. split; [reflexivity|]. regs.
  rewrite !stack_pointer_back by first [exact Hsp1 | exact Hsp].
  rewrite word_of_bytes by lia.
  fold pc. destruct s as [? ? ? ? ? ? ? ? c ?]; destruct c.
  subst pc. unfold CPU6502.with_cycles, CPU6502.with_PC, CPU6502.with_SP.
  regs. f_equal; lia.
Qed.

Lemma jsr_rts_returns_witness :
  exists s',
    (c1 ← step; c2 ← step; mret (c1 + c2))
      (machine horizontal [0x20; 0x10; 0x80; 0xEA; 0; 0; 0; 0; 0; 0; 0; 0; 0;
                           0; 0; 0; 0x60])
    = Ok (12, s') /\
    CPU6502.PC (cpu s') = 0x8003 /\ CPU6502.SP (cpu s') = 0xFD.
Proof.
  destruct (jsr_rts_returns
              (machine horizontal [0x20; 0x10; 0x80; 0xEA; 0; 0; 0; 0; 0; 0; 0;
                                   0; 0; 0; 0; 0; 0x60]) 0x10 0x80
              eq_refl ltac:(vm_compute; split; discriminate)
              ltac:(vm_compute; discriminate) ltac:(vm_compute; discriminate)
              ltac:(vm_compute; split; discriminate)
              eq_refl eq_refl eq_refl eq_refl) as (s' & Hrun & Hcpu).
  exists s'. split; [exact Hrun|]. rewrite Hcpu. split; reflexivity.
Defined.

(** ** Arithmetic and flags *)

Lemma set_flag_spec (s : NES) (mask : Z) (value : bool) :
  set_flag mask value s
  = Ok (tt, with_cpu (CPU6502.with_P (with_flag (CPU6502.P (cpu s)) mask value)
                        (cpu s)) s).
Proof. unfold set_flag, with_flag. by destruct value. Qed.











(** * The controller, from key press to port read *)

Lemma land_1_testbit (x : Z) : Z.land x 1 = Z.b2z (Z.testbit x 0).
Proof.
  change 1 with (Z.ones 1). rewrite Z.land_ones by lia.
  symmetry. apply Z.bit0_mod.
Qed.

Lemma shift_out_lookup (n : nat) : forall (x : Z) (i : nat),
  (i < n)%nat ->
  shift_out x n !! i = Some (port_bit (Z.testbit x (Z.of_nat i))).
Proof.
  induction n as [|n IH]; intros x i Hi; [lia|].
  cbn [shift_out]. destruct i as [|i].
  - cbn [lookup list_lookup]. rewrite land_1_testbit.
    change (Z.of_nat 0) with 0. by destruct (Z.testbit x 0).
  - cbn [lookup list_lookup]. fold (@lookup nat Z (list Z) _).
    rewrite IH by lia. rewrite Z.shiftr_spec by lia.
    do 3 f_equal. lia.
Qed.

(** X9. After the strobe is written 1 then 0, the first eight reads of
    [$4016] return the bits of the first controller's state, bit 0
    first, each as [0x40] or [0x41]; the reads of [$4016] do not disturb
    the second controller, whose eight bits [$4017] then returns in the
    same order. *)
Theorem controller_bit_order (s : NES) (b0 b1 : Z) :
  controller_state s = [b0; b1] -> len (controller_shift s) = 2 ->
  exists bits1 bits2 s',
    (latch;; r1 ← reads 0x4016 8; r2 ← reads 0x4017 8; mret (r1, r2)) s
    = Ok ((bits1, bits2), s') /\
    forall i : nat, (i < 8)%nat ->
      bits1 !! i = Some (port_bit (Z.testbit b0 (Z.of_nat i))) /\
      bits2 !! i = Some (port_bit (Z.testbit b1 (Z.of_nat i))).
Proof.
  intros Hst Hsh.
  destruct (latch_loads s b0 b1 Hst Hsh) as (s1 & Hl & Hs1).
  destruct (reads_port1 8 s1 b0 b1 Hs1) as (s2 & Hr1 & Hs2).
  destruct (reads_port2 8 s2 _ b1 Hs2) as (s3 & Hr2 & _).
  exists (shift_out b0 8), (shift_out b1 8), s3. split.
  - erewrite bind_ok by exact Hl. erewrite bind_ok by exact Hr1.
    erewrite bind_ok by exact Hr2. reflexivity.
  - intros i Hi. split; by apply shift_out_lookup.
Qed.

Lemma controller_bit_order_witness :
  exists bits1 bits2 s',
    (latch;; r1 ← reads 0x4016 8; r2 ← reads 0x4017 8; mret (r1, r2))
      (with_controller_state [0x89; 0x02] (machine horizontal []))
    = Ok ((bits1, bits2), s') /\
    bits1 !! 0%nat = Some 0x41 /\ bits1 !! 1%nat = Some 0x40 /\
    bits1 !! 7%nat = Some 0x41 /\
    bits2 !! 0%nat = Some 0x40 /\ bits2 !! 1%nat = Some 0x41.
Proof.
  destruct (controller_bit_order
              (with_controller_state [0x89; 0x02] (machine horizontal []))
              0x89 0x02 eq_refl eq_refl) as (bits1 & bits2 & s' & Hrun & Hbits).
  exists bits1, bits2, s'. split; [exact Hrun|].
  pose proof (Hbits 0%nat ltac:(lia)) as [H0 G0].
  pose proof (Hbits 1%nat ltac:(lia)) as [H1 G1].
  pose proof (Hbits 7%nat ltac:(lia)) as [H7 _].
  repeat split; assumption.
Defined.
Lemma testbit_press (b bit i : Z) :
  0 <= bit -> 0 <= i ->
  Z.testbit (Z.lor b (Z.shiftl 1 bit)) i = (i =? bit) || Z.testbit b i.
Proof.
  intros Hbit Hi. rewrite Z.lor_spec, Z.shiftl_spec by lia.
  rewrite orb_comm. f_equal.
  destruct (Z.eqb_spec i bit) as [->|Hne].
  - by rewrite Z.sub_diag.
  - destruct (Z.ltb_spec i bit); [by rewrite Z.testbit_neg_r by lia|].
    change 1 with (Z.ones 1). by rewrite Z.ones_spec_high by lia.
Qed.

Lemma testbit_release (b bit i : Z) :
  0 <= bit -> 0 <= i ->
  Z.testbit (Z.land b (Z.lnot (Z.shiftl 1 bit))) i
  = negb (i =? bit) && Z.testbit b i.
Proof.
  intros Hbit Hi. rewrite Z.land_spec, Z.lnot_spec, Z.shiftl_spec by lia.
  rewrite andb_comm. f_equal. f_equal.
  destruct (Z.eqb_spec i bit) as [->|Hne].
  - by rewrite Z.sub_diag.
  - destruct (Z.ltb_spec i bit); [by rewrite Z.testbit_neg_r by lia|].
    change 1 with (Z.ones 1). by rewrite Z.ones_spec_high by lia.
Qed.

Lemma KEYMAP_range (k : key) (bit : Z) : KEYMAP k = Some bit -> 0 <= bit <= 7.
Proof. destruct k; intros [= <-]; lia. Qed.

Lemma first_port_reads (s : NES) (b0 b1 : Z) :
  controller_state s = [b0; b1] -> len (controller_shift s) = 2 ->
  exists s', (latch;; reads 0x4016 8) s = Ok (shift_out b0 8, s').
Proof.
  intros Hst Hsh.
  destruct (latch_loads s b0 b1 Hst Hsh) as (s1 & Hl & Hs1).
  destruct (reads_port1 8 s1 b0 b1 Hs1) as (s2 & Hr1 & _).
  exists s2. by erewrite bind_ok by exact Hl.
Qed.

(** X10. Pressing a key of [KEYMAP] makes the program see the button
    at position [KEYMAP[key]] of the next eight reads of [$4016],
    whatever the other buttons are; releasing it clears that position
    and no other. The second controller is never touched. *)
Theorem key_events_reach_port (rom_path : file) (st : run_state) (k : key)
    (bit b0 b1 : Z) :
  KEYMAP k = Some bit ->
  controller_state (nes st) = [b0; b1] ->
  len (controller_shift (nes st)) = 2 ->
  exists st1 st2 bits1 bits2 s1 s2,
    handle_event rom_path (KEYDOWN k) st = Ok st1 /\
    handle_event rom_path (KEYUP k) st1 = Ok st2 /\
    (latch;; reads 0x4016 8) (nes st1) = Ok (bits1, s1) /\
    (latch;; reads 0x4016 8) (nes st2) = Ok (bits2, s2) /\
    controller_state (nes st1) !! 1%nat = Some b1 /\
    controller_state (nes st2) !! 1%nat = Some b1 /\
    forall i : nat, (i < 8)%nat ->
      bits1 !! i
      = Some (port_bit ((Z.of_nat i =? bit) || Z.testbit b0 (Z.of_nat i))) /\
      bits2 !! i
      = Some (port_bit (negb (Z.of_nat i =? bit)
                        && Z.testbit b0 (Z.of_nat i))).
Proof.
  intros Hk Hst Hsh. pose proof (KEYMAP_range k bit Hk) as Hbit.
  set (p := Z.lor b0 (Z.shiftl 1 bit)).
  set (r := Z.land p (Z.lnot (Z.shiftl 1 bit))).
  set (st1 := {| nes := with_controller_state [p; b1] (nes st);
                 running := running st; paused := paused st |}).
  set (st2 := {| nes := with_controller_state [r; b1] (nes st1);
                 running := running st; paused := paused st |}).
  assert (handle_event rom_path (KEYDOWN k) st = Ok st1) as H1.
  { unfold handle_event. rewrite Hk, Hst.
    destruct k; try discriminate Hk; reflexivity. }
  assert (handle_event rom_path (KEYUP k) st1 = Ok st2) as H2.
  { unfold handle_event. rewrite Hk. reflexivity. }
  destruct (first_port_reads (nes st1) p b1 eq_refl Hsh) as (s1 & Hr1).
  destruct (first_port_reads (nes st2) r b1 eq_refl Hsh) as (s2 & Hr2).
  exists st1, st2, (shift_out p 8), (shift_out r 8), s1, s2.
  repeat (split; [first [assumption | reflexivity]|]).
  intros i Hi. rewrite !shift_out_lookup by exact Hi. subst r p.
  rewrite testbit_release, testbit_press by lia.
  split; [reflexivity|]. do 2 f_equal.
  destruct (Z.of_nat i =? bit); [reflexivity|]. reflexivity.
Qed.

Lemma key_events_reach_port_witness :
  exists st1 st2 bits1 bits2 s1 s2,
    let st := {| nes := with_controller_state [0x80; 0] (machine horizontal []);
                 running := true; paused := false |} in
    handle_event rom_horizontal (KEYDOWN K_RETURN) st = Ok st1 /\
    handle_event rom_horizontal (KEYUP K_RETURN) st1 = Ok st2 /\
    (latch;; reads 0x4016 8) (nes st1) = Ok (bits1, s1) /\
    (latch;; reads 0x4016 8) (nes st2) = Ok (bits2, s2) /\
    bits1 !! 2%nat = Some 0x41 /\ bits2 !! 2%nat = Some 0x40 /\
    bits1 !! 7%nat = Some 0x41 /\ bits2 !! 7%nat = Some 0x41.
Proof.
  destruct (key_events_reach_port rom_horizontal
              {| nes := with_controller_state [0x80; 0] (machine horizontal []);
                 running := true; paused := false |}
              K_RETURN 2 0x80 0 eq_refl eq_refl eq_refl)
    as (st1 & st2 & bits1 & bits2 & s1 & s2 & H1 & H2 & R1 & R2 & _ & _ & Hb).
  exists st1, st2, bits1, bits2, s1, s2. cbv zeta.
  repeat (split; [assumption|]).
  destruct (Hb 2%nat ltac:(lia)) as [-> ->].
  destruct (Hb 7%nat ltac:(lia)) as [-> ->].
  repeat split; reflexivity.
Defined.

(** * Interrupt entry and return *)

Lemma land_0xFF_pred2_ne (sp : Z) :
  0 <= sp <= 255 -> Z.land (Z.land (sp - 1) 0xFF - 1) 0xFF <> sp.
Proof.
  intros H. change 0xFF with (Z.ones 8). rewrite !Z.land_ones by lia.
  change (2 ^ 8) with 256. Z.to_euclidean_division_equations. lia.
Qed.

Lemma execute_RTI :
  execute 0x40
  = (p ← pop;
     set_P (Z.land (Z.land p (Z.lnot 0x10)) 0xFF);;
     lo ← pop; hi ← pop;
     set_PC (Z.lor (Z.shiftl hi 8) lo);;
     add_cycles 6;; mret 6).
Proof. reflexivity. Qed.

(** The NMI block: three pushes, [I] set, [PC] loaded from [$FFFA]. *)
Lemma service_nmi_spec (s : NES) (lo hi : Z) :
  let pc := CPU6502.PC (cpu s) in
  let sp := CPU6502.SP (cpu s) in
  let sp1 := Z.land (sp - 1) 0xFF in
  let sp2 := Z.land (sp1 - 1) 0xFF in
  len (ram s) = 0x800 -> 0 <= sp <= 255 ->
  cpu_read 0xFFFA s = Ok (lo, s) -> cpu_read 0xFFFB s = Ok (hi, s) ->
  service_nmi s
  = Ok (tt,
        with_cpu
          (CPU6502.with_PC (Z.lor (Z.shiftl hi 8) lo)
             (CPU6502.with_P (Z.lor (CPU6502.P (cpu s)) CPU6502.FLAG_I)
                (CPU6502.with_SP (Z.land (sp2 - 1) 0xFF) (cpu s))))
          (with_ram
             (<[Z.to_nat (0x100 + sp2)
                := Z.land (Z.land (CPU6502.P (cpu s)) (Z.lnot 0x10)) 0xFF]>
                (<[Z.to_nat (0x100 + sp1) := Z.land pc 0xFF]>
                   (<[Z.to_nat (0x100 + sp) := Z.land (Z.shiftr pc 8) 0xFF]>
                      (ram s))))
             (with_nmi_pending false s))).
Proof.
  intros pc sp sp1 sp2 Hlen Hsp Hlo Hhi.
  pose proof (land_0xFF_range (sp - 1)) as Hsp1.
  pose proof (land_0xFF_range (sp1 - 1)) as Hsp2.
  unfold service_nmi, get_PC, get_P, set_PC.
  erewrite bind_ok by reflexivity.
  erewrite bind_ok by reflexivity. regs.
  erewrite bind_ok by (apply push_spec; regs; [exact Hsp | exact Hlen]).
  erewrite bind_ok.
  2:{ apply push_spec; regs; [exact Hsp1 | rewrite len_insert; exact Hlen]. }
  erewrite bind_ok by reflexivity. regs.
  erewrite bind_ok.
  2:{ apply push_spec; regs; [exact Hsp2 | rewrite !len_insert; exact Hlen]. }
  erewrite bind_ok by apply set_flag_spec. regs.
  erewrite bind_ok.
  2:{ eapply cpu_read_prg_frame; [lia | | | exact Hlo]; reflexivity. }
  erewrite bind_ok.
  2:{ eapply cpu_read_prg_frame; [lia | | | exact Hhi]; reflexivity. }
  rewrite !land_0xFF_idemp. unfold with_flag.
  subst pc sp sp1 sp2. destruct s as [? ? ? ? ? ? ? ? c ?]; destruct c.
  reflexivity.
Qed.

(** [RTI] pops [P] (stored without [B]), then the low and the high byte
    of [PC]. *)
Lemma step_RTI (s : NES) (p lo hi : Z) :
  let sp1 := Z.land (CPU6502.SP (cpu s) + 1) 0xFF in
  let sp2 := Z.land (sp1 + 1) 0xFF in
  let sp3 := Z.land (sp2 + 1) 0xFF in
  cpu_read (CPU6502.PC (cpu s)) s = Ok (0x40, s) ->
  getitem (ram s) (0x100 + sp1) = Ok p ->
  getitem (ram s) (0x100 + sp2) = Ok lo ->
  getitem (ram s) (0x100 + sp3) = Ok hi ->
  step s
  = Ok (6,
        with_cpu
          (CPU6502.with_cycles (CPU6502.cycles (cpu s) + 6)
             (CPU6502.with_PC (Z.lor (Z.shiftl hi 8) lo)
                (CPU6502.with_P (Z.land (Z.land p (Z.lnot 0x10)) 0xFF)
                   (CPU6502.with_SP sp3 (cpu s)))))
          s).
Proof.
  intros sp1 sp2 sp3 Hop Hp Hlo Hhi.
  rewrite (step_fetch s 0x40) by exact Hop. rewrite execute_RTI.
  unfold set_P, set_PC, add_cycles, get_cycles, set_cycles.
  erewrite bind_ok by (apply pop_ok; regs; exact Hp).
  erewrite bind_ok by reflexivity.
  erewrite bind_ok by (apply pop_ok; regs; exact Hlo).
  erewrite bind_ok by (apply pop_ok; regs; exact Hhi).
  erewrite bind_ok by reflexivity.
  erewrite bind_ok by reflexivity.
  subst sp1 sp2 sp3. destruct s as [? ? ? ? ? ? ? ? c ?]; destruct c.
  reflexivity.
Qed.

Lemma status_without_B (p : Z) :
  0 <= p <= 255 ->
  Z.land (Z.land (Z.land (Z.land p (Z.lnot 0x10)) 0xFF) (Z.lnot 0x10)) 0xFF
  = Z.land p 0xEF.
Proof.
  intros Hp. apply Z.eqb_eq.
  apply (forallb_range
           (fun p => Z.land (Z.land (Z.land (Z.land p (Z.lnot 0x10)) 0xFF)
                               (Z.lnot 0x10)) 0xFF =? Z.land p 0xEF) 256);
    [|lia].
  vm_compute. reflexivity.
Qed.

(** X11. With 2 KiB of work RAM, [SP] and [P] bytes and [PC] a 16-bit
    address ([0 <= PC <= $FFFF]): an iteration of the CPU loop that
    finds an NMI pending, where the vector at [$FFFA/$FFFB] names a
    handler in the cartridge window [$8000-$FFFF] that holds an [RTI],
    services the interrupt and returns from it: [PC], [SP], [A], [X]
    and [Y] are as before, [P] is as before with bit 4 cleared (so [I]
    is restored), the pending flag is cleared, and the iteration is
    charged the 6 cycles of the [RTI] only. The handler is required in
    the cartridge window, where the three pushes cannot overwrite it. *)
Theorem nmi_rti_round_trip (s : NES) (lo hi : Z) :
  let handler := Z.lor (Z.shiftl hi 8) lo in
  nmi_pending s = true ->
  len (ram s) = 0x800 ->
  0 <= CPU6502.SP (cpu s) <= 255 -> 0 <= CPU6502.P (cpu s) <= 255 ->
  0 <= CPU6502.PC (cpu s) <= 0xFFFF ->
  cpu_read 0xFFFA s = Ok (lo, s) -> cpu_read 0xFFFB s = Ok (hi, s) ->
  0x8000 <= handler <= 0xFFFF -> cpu_read handler s = Ok (0x40, s) ->
  exists s',
    loop_body s = Ok (6, s') /\
    cpu s' = CPU6502.with_cycles (CPU6502.cycles (cpu s) + 6)
               (CPU6502.with_P (Z.land (CPU6502.P (cpu s)) 0xEF) (cpu s)) /\
    nmi_pending s' = false.
Proof.
  intros handler Hpend Hlen Hsp Hp Hpc Hlo Hhi Hh Hrti.
  pose proof (land_0xFF_range (CPU6502.SP (cpu s) - 1)) as Hsp1.
  pose proof (land_0xFF_range (Z.land (CPU6502.SP (cpu s) - 1) 0xFF - 1))
    as Hsp2.
  pose proof (land_0xFF_pred_ne _ Hsp) as Hne1.
  pose proof (land_0xFF_pred_ne _ Hsp1) as Hne2.
  pose proof (land_0xFF_pred2_ne _ Hsp) as Hne3.
  unfold loop_body. erewrite bind_ok by reflexivity. rewrite Hpend.
  erewrite bind_ok by (by apply service_nmi_spec).
  fold handler.
  erewrite (step_RTI _ _ (Z.land (CPU6502.PC (cpu s)) 0xFF)
              (Z.land (Z.shiftr (CPU6502.PC (cpu s)) 8) 0xFF)); regs.
  - eexists. split; [reflexivity|]. regs.
    rewrite !stack_pointer_back by assumption.
    rewrite word_of_bytes by lia. rewrite status_without_B by exact Hp.
    split; [|reflexivity].
    destruct s as [? ? ? ? ? ? ? ? c ?]; destruct c. reflexivity.
  - eapply cpu_read_prg_frame; [exact Hh | | | exact Hrti]; reflexivity.
  - rewrite stack_pointer_back by assumption.
    apply getitem_insert_eq. rewrite !len_insert. lia.
  - rewrite !stack_pointer_back by assumption.
    rewrite getitem_insert_ne by lia.
    apply getitem_insert_eq. rewrite len_insert. lia.
  - rewrite !stack_pointer_back by assumption.
    rewrite !getitem_insert_ne by lia.
    apply getitem_insert_eq. lia.
Qed.

Lemma nmi_rti_round_trip_witness :
  exists s',
    loop_body (with_nmi_pending true (machine horizontal [0x40]))
    = Ok (6, s') /\
    CPU6502.PC (cpu s') = 0x8000 /\ CPU6502.SP (cpu s') = 0xFD /\
    CPU6502.P (cpu s') = 0x24 /\ nmi_pending s' = false.
Proof.
  destruct (nmi_rti_round_trip
              (with_nmi_pending true (machine horizontal [0x40])) 0x00 0x80
              eq_refl eq_refl
              ltac:(vm_compute; split; discriminate)
              ltac:(vm_compute; split; discriminate)
              ltac:(vm_compute; split; discriminate)
              eq_refl eq_refl
              ltac:(vm_compute; split; discriminate) eq_refl)
    as (s' & Hrun & Hcpu & Hpend).
  exists s'. split; [exact Hrun|]. rewrite Hcpu.
  repeat split; first [reflexivity | exact Hpend].
Defined.

(** * Branches and jumps *)













(** * A frame runs to completion *)

Lemma getitem_ok {A} (l : list A) (i : Z) :
  0 <= i < len l -> exists v, getitem l i = Ok v.
Proof. intros H. destruct (getitem_in_range l i H) as (v & Hv & _). eauto. Qed.

Lemma for_each_ok {S} (Q : Z -> Prop) (idxs : list Z)
    (body : Z -> S -> result S) :
  Forall Q idxs ->
  (forall i s, Q i -> exists s', body i s = Ok s') ->
  forall s, exists s', for_each idxs body s = Ok s'.
Proof.
  intros Hall Hbody. induction Hall as [|i rest Hi _ IH]; intros s.
  - by exists s.
  - cbn [for_each]. destruct (Hbody i s Hi) as (s1 & ->). apply IH.
Qed.

Lemma range_bounded (n : Z) : Forall (fun i => 0 <= i < n) (range n).
Proof. apply Forall_forall. intros i Hi. apply elem_of_seqZ in Hi. lia. Qed.

Lemma list_comp_ok {B} (Q : Z -> Prop) (P : B -> Prop) (f : Z -> result B)
    (idxs : list Z) :
  Forall Q idxs ->
  (forall i, Q i -> exists b, f i = Ok b /\ P b) ->
  exists bs, list_comp f idxs = Ok bs /\ Forall P bs /\
             length bs = length idxs.
Proof.
  intros Hall Hf. induction Hall as [|i rest Hi _ (bs & Hbs & HP & Hlen)].
  - exists []. by repeat split.
  - destruct (Hf i Hi) as (b & Hb & HPb). exists (b :: bs).
    cbn [list_comp]. rewrite Hb. cbn [mbind result_bind]. rewrite Hbs.
    repeat split; [by constructor | cbn; lia].
Qed.

Lemma decode_tile_8x8_shape (tile_bytes : list Z) :
  length tile_bytes = 16%nat ->
  exists pixels, decode_tile_8x8 tile_bytes = Ok pixels /\ tile_shape pixels.
Proof.
  intros Hlen. list16 tile_bytes Hlen.
  eexists. split; [apply decode_tile_8x8_rows|].
  split; [reflexivity|]. rewrite List.Forall_map. repeat constructor.
Qed.

Lemma length_tile_slice (chr : list Z) (i : Z) :
  0 <= i < len chr / 16 ->
  length (slice chr (i * 16) ((i + 1) * 16)) = 16%nat.
Proof.
  intros Hi. unfold slice. rewrite length_take, length_drop.
  unfold len in *.
  assert ((i + 1) * 16 <= Z.of_nat (length chr))
    by (Z.to_euclidean_division_equations; lia).
  lia.
Qed.

(** The tile list of [render_frame]: one well-shaped tile for every
    whole 16 bytes of CHR. *)
Lemma decode_all_tiles (chr : list Z) :
  exists tiles,
    list_comp (fun i => decode_tile_8x8 (slice chr (i * 16) ((i + 1) * 16)))
      (range (len chr / 16)) = Ok tiles /\
    Forall tile_shape tiles /\ len tiles = Z.max 0 (len chr / 16).
Proof.
  destruct (list_comp_ok (fun i => 0 <= i < len chr / 16) tile_shape
              (fun i => decode_tile_8x8 (slice chr (i * 16) ((i + 1) * 16)))
              (range (len chr / 16)))
    as (tiles & Ht & Hshape & Hlen).
  - apply range_bounded.
  - intros i Hi. by apply decode_tile_8x8_shape, length_tile_slice.
  - exists tiles. split; [exact Ht|]. split; [exact Hshape|].
    unfold len at 1. rewrite Hlen. unfold range. rewrite length_seqZ. lia.
Qed.

Lemma tile_lookup (tiles : list (list (list Z))) (idx : Z) :
  Forall tile_shape tiles -> 1 <= len tiles ->
  exists tile,
    getitem tiles (idx mod Z.max 1 (len tiles)) = Ok tile /\ tile_shape tile.
Proof.
  intros Hall Hlen.
  destruct (getitem_in_range tiles (idx mod Z.max 1 (len tiles)))
    as (tile & Hget & Hlook).
  { rewrite Z.max_r by lia. apply Z.mod_pos_bound. lia. }
  exists tile. split; [exact Hget|].
  rewrite Forall_lookup in Hall. eauto.
Qed.

Lemma tile_pixel (tile : list (list Z)) (y x : Z) :
  tile_shape tile -> 0 <= y < 8 -> 0 <= x < 8 ->
  exists row t, getitem tile y = Ok row /\ getitem row x = Ok t.
Proof.
  intros [Hlen Hrows] Hy Hx.
  destruct (getitem_in_range tile y) as (row & Hrow & Hlook); [lia|].
  rewrite Forall_lookup in Hrows. pose proof (Hrows _ _ Hlook) as Hr.
  destruct (getitem_ok row x) as (t & Ht); [lia|]. eauto.
Qed.

Lemma land_0x3FFF_id (a : Z) : 0 <= a <= 0x3FFF -> Z.land a 0x3FFF = a.
Proof.
  intros H. change 0x3FFF with (Z.ones 14). rewrite Z.land_ones by lia.
  apply Z.mod_small. change (2 ^ 14) with 16384. lia.
Qed.

Lemma PPU_read_vram_ok (p : PPU.t) (a : Z) :
  len (PPU.vram p) = 0x800 -> 0x2000 <= a < 0x3F00 ->
  exists v, PPU.read p a = Ok v.
Proof.
  intros Hlen Ha. unfold PPU.read. rewrite land_0x3FFF_id by lia.
  repeat (case_test; try lia).
  apply getitem_ok. pose proof (land_0x07FF_range (a - 0x2000)). lia.
Qed.

Lemma PPU_read_palette_ok (p : PPU.t) (a : Z) :
  len (PPU.palette p) = 32 -> 0x3F00 <= a <= 0x3FFF ->
  exists v, PPU.read p a = Ok v.
Proof.
  intros Hlen Ha. unfold PPU.read. rewrite land_0x3FFF_id by lia.
  repeat (case_test; try lia).
  apply getitem_ok. pose proof (Z.mod_pos_bound (a - 0x3F00) 32). lia.
Qed.

Lemma palette_colour_ok (c : Z) :
  exists color, getitem NES_PALETTE (c mod len NES_PALETTE) = Ok color.
Proof.
  apply getitem_ok. apply Z.mod_pos_bound. reflexivity.
Qed.

Lemma land_3_range (a : Z) : 0 <= Z.land a 0x03 <= 3.
Proof.
  pose proof (land_ones_range a 2 ltac:(lia)) as H.
  change (Z.ones 2) with 0x03 in H. change (2 ^ 2) with 4 in H. lia.
Qed.

Section render_total.
Variable self : PPU.t.
Variable tiles : list (list (list Z)).
Hypothesis Hppu : ppu_wf self.
Hypothesis Htiles : Forall tile_shape tiles.
Hypothesis Hcount : 1 <= len tiles.

Lemma draw_bg_pixel_ok (tile : list (list Z)) (pal_base row col ty tx : Z)
    (surf : Surface.t) :
  tile_shape tile -> 0x3F00 <= pal_base <= 0x3FFC ->
  0 <= ty < 8 -> 0 <= tx < 8 ->
  exists surf', draw_bg_pixel self tile pal_base row col ty tx surf = Ok surf'.
Proof.
  intros Hshape Hbase Hty Htx. unfold draw_bg_pixel.
  destruct (tile_pixel tile ty tx Hshape Hty Htx) as (trow & t & -> & Ht).
  cbn [mbind result_bind]. rewrite Ht. cbn [mbind result_bind]. cbv zeta.
  pose proof (land_3_range t).
  destruct (PPU_read_palette_ok self (pal_base + Z.land t 0x03)
              (pw_palette _ Hppu) ltac:(lia)) as (c & ->).
  cbn [mbind result_bind].
  destruct (palette_colour_ok (Z.land c 0x3F)) as (color & ->).
  cbn [mbind result_bind]. eauto.
Qed.

Lemma draw_bg_tile_ok (row col : Z) (surf : Surface.t) :
  0 <= row < 30 -> 0 <= col < 32 ->
  exists surf', draw_bg_tile self tiles row col surf = Ok surf'.
Proof.
  intros Hrow Hcol. unfold draw_bg_tile. cbv zeta.
  destruct (PPU_read_vram_ok self (0x2000 + row * 32 + col)
              (pw_vram _ Hppu) ltac:(lia)) as (tile_index & ->).
  cbn [mbind result_bind].
  destruct (tile_lookup tiles tile_index Htiles Hcount) as (tile & -> & Hshape).
  cbn [mbind result_bind].
  destruct (PPU_read_vram_ok self (0x23C0 + row / 4 * 8 + col / 4)
              (pw_vram _ Hppu)) as (attr & ->).
  { Z.to_euclidean_division_equations; lia. }
  cbn [mbind result_bind].
  match goal with |- context [Z.land ?x 0x03] => pose proof (land_3_range x) end.
  apply (for_each_ok (fun i => 0 <= i < 8)); [apply range_bounded|].
  intros ty s1 Hty.
  apply (for_each_ok (fun i => 0 <= i < 8)); [apply range_bounded|].
  intros tx s2 Htx. apply draw_bg_pixel_ok; [exact Hshape | lia | lia | lia].
Qed.

Lemma render_background_ok (surf : Surface.t) :
  exists surf', render_background self tiles surf = Ok surf'.
Proof.
  unfold render_background.
  apply (for_each_ok (fun i => 0 <= i < 30)); [apply range_bounded|].
  intros row s1 Hrow.
  apply (for_each_ok (fun i => 0 <= i < 32)); [apply range_bounded|].
  intros col s2 Hcol. by apply draw_bg_tile_ok.
Qed.

Lemma draw_sprite_pixel_ok (tile : list (list Z)) (pal_base x y : Z)
    (flip_h flip_v : bool) (ty tx : Z) (surf : Surface.t) :
  tile_shape tile -> 0x3F10 <= pal_base <= 0x3F1C ->
  0 <= ty < 8 -> 0 <= tx < 8 ->
  exists surf',
    draw_sprite_pixel self tile pal_base x y flip_h flip_v ty tx surf
    = Ok surf'.
Proof.
  intros Hshape Hbase Hty Htx. unfold draw_sprite_pixel. cbv zeta.
  destruct (tile_pixel tile (if negb flip_v then ty else 7 - ty)
              (if negb flip_h then tx else 7 - tx) Hshape)
    as (trow & t & -> & Ht);
    [destruct flip_v; cbn [negb]; lia | destruct flip_h; cbn [negb]; lia |].
  cbn [mbind result_bind]. rewrite Ht. cbn [mbind result_bind].
  destruct (Z.land t 0x03 =? 0); [by eexists|].
  pose proof (land_3_range t).
  destruct (PPU_read_palette_ok self (pal_base + Z.land t 0x03)
              (pw_palette _ Hppu) ltac:(lia)) as (c & ->).
  cbn [mbind result_bind].
  destruct (palette_colour_ok (Z.land c 0x3F)) as (color & ->).
  cbn [mbind result_bind].
  match goal with |- context [if ?b then _ else _] => destruct b end;
    by eexists.
Qed.

Lemma draw_sprite_ok (s : Z) (surf : Surface.t) :
  0 <= s < 64 -> exists surf', draw_sprite self tiles s surf = Ok surf'.
Proof.
  intros Hs. unfold draw_sprite.
  pose proof (pw_oam _ Hppu) as Hoam.
  destruct (getitem_ok (PPU.oam self) (s * 4 + 0)) as (y & ->); [lia|].
  cbn [mbind result_bind].
  destruct (getitem_ok (PPU.oam self) (s * 4 + 1)) as (tile_idx & ->); [lia|].
  cbn [mbind result_bind].
  destruct (getitem_ok (PPU.oam self) (s * 4 + 2)) as (attr & ->); [lia|].
  cbn [mbind result_bind].
  destruct (getitem_ok (PPU.oam self) (s * 4 + 3)) as (x & ->); [lia|].
  cbn [mbind result_bind]. cbv zeta.
  destruct (tile_lookup tiles tile_idx Htiles Hcount) as (tile & -> & Hshape).
  cbn [mbind result_bind].
  pose proof (land_3_range attr).
  apply (for_each_ok (fun i => 0 <= i < 8)); [apply range_bounded|].
  intros ty s1 Hty.
  apply (for_each_ok (fun i => 0 <= i < 8)); [apply range_bounded|].
  intros tx s2 Htx. apply draw_sprite_pixel_ok; [exact Hshape | lia | lia | lia].
Qed.

Lemma render_sprites_ok (surf : Surface.t) :
  exists surf', render_sprites self tiles surf = Ok surf'.
Proof.
  unfold render_sprites.
  apply (for_each_ok (fun i => 0 <= i < 64)); [apply range_bounded|].
  intros s s1 Hs. by apply draw_sprite_ok.
Qed.
End render_total.

(** [render_frame] returns a surface for every well-formed PPU. *)
Lemma render_frame_ok (p : PPU.t) :
  ppu_wf p -> exists surf, render_frame p = Ok surf.
Proof.
  intros Hp. unfold render_frame. cbv zeta.
  rewrite (pw_palette _ Hp). change (0 <? 32) with true. cbv iota.
  destruct (getitem_ok (PPU.palette p) 0) as (bg & ->);
    [rewrite (pw_palette _ Hp); lia|].
  cbn [mbind result_bind].
  destruct (palette_colour_ok bg) as (color & ->). cbn [mbind result_bind].
  destruct (decode_all_tiles (PPU.chr p)) as (tiles & -> & Hshape & Hlen).
  cbn [mbind result_bind].
  assert (1 <= len tiles) as Hcount.
  { rewrite Hlen. pose proof (pw_chr _ Hp).
    Z.to_euclidean_division_equations; lia. }
  destruct (render_background_ok p tiles Hp Hshape Hcount
              (Surface.fill color (Surface.new SCREEN_W SCREEN_H)))
    as (surf & ->).
  cbn [mbind result_bind]. by apply render_sprites_ok.
Qed.

(** The CPU cannot resize or replace the PPU memory a frame is drawn
    from. *)
Lemma run_loop_ppu_wf (fuel : nat) (target cycles total : Z) (s s' : NES) :
  wf s' -> ppu_wf (ppu s) ->
  run_loop fuel target cycles s = Some (Ok (total, s')) ->
  ppu_wf (ppu s').
Proof.
  intros Hwf [Hc Hv Hp Ho] Hrun.
  destruct (run_loop_picture fuel target cycles total s s s'
              (picture_fixed_refl s) Hrun) as (_ & _ & Ec & Ev & Ep).
  split; [by rewrite Ec | by rewrite Ev | by rewrite Ep | apply Hwf].
Qed.

(** Whatever the state, [frame] stops: it returns or raises. *)
Lemma frame_stops (s : NES) :
  exists r, frame (Z.to_nat 29780) s = Some r.
Proof.
  unfold frame, run_cpu_cycles. cbv zeta.
  destruct (run_loop_terminates (Z.to_nat 29780) 29780 0 s ltac:(lia))
    as (r & -> & _).
  destruct r as [[total s1]|e]; [|by eexists].
  destruct (render_frame (ppu s1)); by eexists.
Qed.

(** On a well-formed machine with well-formed PPU memory, [frame]
    returns the rendered surface and latches the NMI. *)
Lemma frame_completes (s : NES) :
  wf s -> ppu_wf (ppu s) ->
  exists surf s',
    frame (Z.to_nat 29780) s = Some (Ok (surf, s')) /\
    nmi_pending s' = true /\ wf s' /\ ppu_wf (ppu s').
Proof.
  intros Hwf Hppu. unfold frame, run_cpu_cycles. cbv zeta.
  destruct (run_loop_completes (Z.to_nat 29780) 29780 0 s Hwf ltac:(lia))
    as (total & s1 & Hrun & _ & Hwf1).
  rewrite Hrun.
  pose proof (run_loop_ppu_wf _ _ _ _ _ _ Hwf1 Hppu Hrun) as Hppu1.
  destruct (render_frame_ok (ppu s1) Hppu1) as (surf & ->).
  exists surf, (with_nmi_pending true s1).
  split; [reflexivity|]. split; [reflexivity|].
  split; [by apply wf_with_nmi_pending | exact Hppu1].
Qed.

(** C9, as the code has it. Every call of [step] that returns, returns
    at least 2 cycles, so the loop of [run_cpu_cycles] stops for every
    machine state and every cycle target, and so does [frame]: with
    enough fuel each either returns (the loop with a total that reached
    the target) or raises. Completion is not unconditional. On a
    well-formed machine (buffers of the sizes the constructors
    allocate, PRG image covering the cartridge window) [step] does
    return and the loop returns normally, in a well-formed state; when
    the PPU memory is well formed too (at least one whole tile of CHR,
    VRAM, palette and OAM of their constructor sizes), [frame] returns
    the rendered surface with the NMI latched. *)
Theorem run_cpu_cycles_terminates (s : NES) (target_cycles : Z) :
  (forall c s', step s = Ok (c, s') -> 2 <= c) /\
  (exists fuel r,
     run_cpu_cycles fuel target_cycles s = Some r /\
     match r with
     | Ok (total, _) => target_cycles <= total
     | Raise _ => True
     end) /\
  (exists fuel r, frame fuel s = Some r) /\
  (wf s ->
   (exists c s', step s = Ok (c, s') /\ 2 <= c /\ wf s') /\
   exists fuel total s',
     run_cpu_cycles fuel target_cycles s = Some (Ok (total, s')) /\
     target_cycles <= total /\ wf s') /\
  (wf s -> ppu_wf (ppu s) ->
   exists fuel surf s',
     frame fuel s = Some (Ok (surf, s')) /\
     nmi_pending s' = true /\ wf s' /\ ppu_wf (ppu s')).
Proof.
  split; [|split; [|split; [|split]]].
  - intros c s' Hstep. pose proof (step_cycles s Logic.I) as H.
    unfold wp in H. rewrite Hstep in H. tauto.
  - exists (Z.to_nat target_cycles). unfold run_cpu_cycles.
    apply run_loop_terminates. lia.
  - exists (Z.to_nat 29780). apply frame_stops.
  - intros Hwf. split.
    + pose proof (step_wf s Hwf) as H. unfold wp in H.
      destruct (step s) as [[c s']|e]; [|destruct H].
      exists c, s'. tauto.
    + exists (Z.to_nat target_cycles). unfold run_cpu_cycles.
      apply run_loop_completes; [exact Hwf | lia].
  - intros Hwf Hppu. exists (Z.to_nat 29780). by apply frame_completes.
Qed.

Lemma run_cpu_cycles_terminates_witness :
  (exists fuel total s',
     run_cpu_cycles fuel 29780 (machine horizontal [0xEA; 0x4C; 0x00; 0x80])
     = Some (Ok (total, s')) /\
     29780 <= total) /\
  (exists fuel surf s',
     frame fuel (machine horizontal [0xEA; 0x4C; 0x00; 0x80])
     = Some (Ok (surf, s')) /\
     nmi_pending s' = true).
Proof.
  destruct (run_cpu_cycles_terminates
              (machine horizontal [0xEA; 0x4C; 0x00; 0x80]) 29780)
    as (_ & _ & _ & Hloop & Hframe).
  assert (wf (machine horizontal [0xEA; 0x4C; 0x00; 0x80])) as Hwf.
  { split; try reflexivity. unfold prg_fits. vm_compute. discriminate. }
  assert (ppu_wf (ppu (machine horizontal [0xEA; 0x4C; 0x00; 0x80]))) as Hppu.
  { split; try reflexivity. vm_compute. discriminate. }
  split.
  - destruct (Hloop Hwf) as (_ & fuel & total & s' & Hrun & Htotal & _).
    exists fuel, total, s'. split; [exact Hrun | exact Htotal].
  - destruct (Hframe Hwf Hppu) as (fuel & surf & s' & Hrun & Hnmi & _).
    exists fuel, surf, s'. split; [exact Hrun | exact Hnmi].
Defined.

(** C9 fails as stated: a frame need not complete. An image whose PRG
    data stops two bytes early loads and the system is built on it, but
    the first instruction, [BRK], reads the IRQ vector past the end of
    the image: the CPU loop, and with it the frame, is aborted by
    [IndexError]. With a full PRG bank and a CHR image of ten bytes the
    buffers the CPU uses have their constructor sizes, and
    [render_frame], which the frame calls on the CHR the CPU cannot
    change, finds no tile to draw and raises [IndexError]. *)
Lemma frame_aborts_counterexample :
  (s ← NES__init__ rom_prg_short;
   mret (CPU6502.PC (cpu s), len (prg s),
         run_cpu_cycles (Z.to_nat 29780) 29780 s,
         frame (Z.to_nat 29780) s))
  = Ok (0x8000, 0x3FFE, Some (Raise IndexError), Some (Raise IndexError)) /\
  (s ← NES__init__ rom_chr_short;
   mret (len (ram s), len (sram s), len (PPU.oam (ppu s)), len (prg s),
         prg_banks (rom s), len (PPU.chr (ppu s)),
         render_frame (ppu s)))
  = Ok (0x800, 0x2000, 256, 0x4000, 1, 10, Raise IndexError).
Proof. split; vm_compute; reflexivity. Qed.
